(** * bookRooms.js: the hotel room booking widget

  A shallow embedding of [assignment2/js/bookRooms.js] (module
  [BookRooms]) and the properties of its availability check, date
  formatting, XML loaders and form validators.

  JavaScript strings are modelled as [string]; a character stands for one
  code unit below 256.  The relational operator [<] on two strings is the
  code-unit-wise lexicographic order, which is [String.ltb]. *)

From Stdlib Require Import Bool List Arith ZArith NArith Lia.
From Stdlib Require Import Strings.Ascii Strings.String.
From Stdlib Require Import Numbers.DecimalString.
From Stdlib Require Import Sorting.Permutation.
Import ListNotations.

Open Scope list_scope.
Open Scope string_scope.

(** ** JavaScript values and coercions used by the script *)

Module JS.

(** What jQuery's [.val()] hands back: [undefined] when no element is
    matched, [null] for a select without a selected option, a string
    otherwise. *)
Inductive value : Type :=
| Undefined
| Null
| Str (s : string).

(** [ToString], as applied by [+] with a string operand. *)
Definition to_string (v : value) : string :=
  match v with
  | Undefined => "undefined"
  | Null => "null"
  | Str s => s
  end.

(** [ToBoolean]: among the values above [undefined], [null] and the empty
    string are falsy. *)
Definition truthy (v : value) : bool :=
  match v with
  | Undefined | Null => false
  | Str s => negb (s =? "")
  end.

(** [a < b] and [a > b] on two strings. *)
Definition lt (a b : string) : bool := (a <? b).
Definition gt (a b : string) : bool := (b <? a).

(** [a === b] on two strings. *)
Definition strict_eq (a b : string) : bool := (a =? b).

(** [array.push(x)] *)
Definition push {A : Type} (array : list A) (x : A) : list A :=
  (array ++ [x])%list.

(** [Number::toString] on an integer (the getters of [Date] return
    integers of small magnitude). *)
Definition Number_to_string (z : Z) : string :=
  NilZero.string_of_int (Z.to_int z).

(** White space and line terminators among the code units below 256:
    TAB, LF, VT, FF, CR, SP and NBSP. *)
Definition is_white_space (c : ascii) : bool :=
  let n := N_of_ascii c in
  ((9 <=? n) && (n <=? 13) || (n =? 32) || (n =? 160))%N.

Fixpoint trim_start (s : string) : string :=
  match s with
  | String c s' => if is_white_space c then trim_start s' else s
  | "" => ""
  end.

Fixpoint trim_end (s : string) : string :=
  match s with
  | String c s' =>
      let r := trim_end s' in
      if is_white_space c && (r =? "") then "" else String c r
  | "" => ""
  end.

Definition trim (s : string) : string := trim_end (trim_start s).

(** *** [StringToNumber]

    The value of a string numeric literal, kept exact: a sign, a
    mantissa and a power of ten.  The binary64 rounding is applied where
    the script observes the number, in [below_ten]. *)
Inductive numeric : Type :=
| NaN
| Infinity (negative : bool)
| Decimal (negative : bool) (m : N) (e : Z).

Definition digit_of (base : N) (c : ascii) : option N :=
  let n := N_of_ascii c in
  let d :=
    if ((48 <=? n) && (n <=? 57))%N then Some (n - 48)%N
    else if ((97 <=? n) && (n <=? 102))%N then Some (n - 87)%N
    else if ((65 <=? n) && (n <=? 70))%N then Some (n - 55)%N
    else None in
  match d with
  | Some v => if (v <? base)%N then Some v else None
  | None => None
  end.

(** Reads the longest prefix of digits: the value accumulated, the number
    of digits read and the rest of the string. *)
Fixpoint read_digits (base acc : N) (count : nat) (s : string)
  : N * nat * string :=
  match s with
  | String c s' =>
      match digit_of base c with
      | Some d => read_digits base (acc * base + d)%N (S count) s'
      | None => (acc, count, s)
      end
  | "" => (acc, count, "")
  end.

(** [ExponentPart], optional, then the end of the literal. *)
Definition exponent_part (negative : bool) (m : N) (e : Z) (s : string)
  : numeric :=
  match s with
  | "" => Decimal negative m e
  | String c s' =>
      if ((c =? "e") || (c =? "E"))%char then
        let '(minus, ds) :=
          match s' with
          | String "+" t => (false, t)
          | String "-" t => (true, t)
          | _ => (false, s')
          end in
        match read_digits 10 0 0 ds with
        | (x, S _, "") =>
            Decimal negative m (if minus then e - Z.of_N x else e + Z.of_N x)
        | _ => NaN
        end
      else NaN
  end.

(** [StrUnsignedDecimalLiteral]: [Infinity], [d+ . d* exp?], [. d+ exp?]
    or [d+ exp?]. *)
Definition unsigned_decimal (negative : bool) (s : string) : numeric :=
  if s =? "Infinity" then Infinity negative
  else
    let '(i, ni, r) := read_digits 10 0 0 s in
    match r with
    | String "." r' =>
        let '(m, nf, r'') := read_digits 10 i 0 r' in
        match ni, nf with
        | O, O => NaN
        | _, _ => exponent_part negative m (- Z.of_nat nf) r''
        end
    | _ =>
        match ni with
        | O => NaN
        | S _ => exponent_part negative i 0 r
        end
    end.

(** [NonDecimalIntegerLiteral]: [0x], [0o] and [0b] literals carry no
    sign. *)
Definition non_decimal (s : string) : option numeric :=
  match s with
  | String "0" (String c ds) =>
      let base :=
        if ((c =? "x") || (c =? "X"))%char then Some 16%N
        else if ((c =? "o") || (c =? "O"))%char then Some 8%N
        else if ((c =? "b") || (c =? "B"))%char then Some 2%N
        else None in
      match base with
      | Some b =>
          Some match read_digits b 0 0 ds with
               | (v, S _, "") => Decimal false v 0
               | _ => NaN
               end
      | None => None
      end
  | _ => None
  end.

Definition StringToNumber (s : string) : numeric :=
  let t := trim s in
  if t =? "" then Decimal false 0 0
  else
    match non_decimal t with
    | Some v => v
    | None =>
        match t with
        | String "+" u => unsigned_decimal false u
        | String "-" u => unsigned_decimal true u
        | _ => unsigned_decimal false t
        end
    end.

(** [x < 10] for the Number a literal denotes.  The literal is rounded to
    the nearest binary64, ties to even; the binary64 next below 10 is
    [10 - 2^-49] and the tie between them goes to 10, so the rounded
    value is below 10 exactly when the exact one is below [10 - 2^-50].
    [NaN] compares false. *)
Definition below_ten (x : numeric) : bool :=
  match x with
  | NaN => false
  | Infinity negative => negative
  | Decimal true _ _ => true
  | Decimal false m e =>
      let bound := (10 * 2 ^ 50 - 1)%Z in
      if (0 <=? e)%Z then (Z.of_N m * 10 ^ e * 2 ^ 50 <? bound)%Z
      else (Z.of_N m * 2 ^ 50 <? bound * 10 ^ (- e))%Z
  end.

(** [s < 10] for a string [s]: the string is converted to a Number. *)
Definition string_lt_10 (s : string) : bool := below_ten (StringToNumber s).

End JS.

(** ** XML documents and their traversal with jQuery *)

Module XML.

#[local] Set Warnings "-register-all".

Inductive node : Type :=
| Text (data : string)
| Element (tag : string) (children : list node).

Fixpoint textContent (n : node) : string :=
  match n with
  | Text s => s
  | Element _ cs => String.concat "" (map textContent cs)
  end.

(** The elements of a subtree in document order, its root first. *)
Fixpoint subtree (n : node) : list node :=
  match n with
  | Text _ => []
  | Element _ cs => n :: flat_map subtree cs
  end.

Definition descendants (n : node) : list node :=
  match n with
  | Text _ => []
  | Element _ cs => flat_map subtree cs
  end.

Definition has_tag (name : string) (n : node) : bool :=
  match n with
  | Text _ => false
  | Element t _ => t =? name
  end.

(** The document node: it is no element and has the root element as its
    child. *)
Definition document (root : node) : node := Element "#document" [root].

(** A jQuery object over XML nodes.  In the script it holds the document,
    one element, or nothing. *)
Definition query : Type := list node.

(** [$(n)] *)
Definition wrap (n : node) : query := [n].

(** [q.find(name)]: the descendant elements with that tag name, in
    document order.  (Over several nodes jQuery also drops repeats; the
    script searches from one node at most.) *)
Definition find (name : string) (q : query) : query :=
  flat_map (fun n => filter (has_tag name) (descendants n)) q.

(** [q.text()]: the text of every matched node, concatenated; the empty
    string when nothing is matched. *)
Definition text (q : query) : string :=
  String.concat "" (map textContent q).

(** [$(q[0])]: [q[0]] is [undefined] on an empty match and [$(undefined)]
    matches nothing. *)
Definition first (q : query) : query :=
  match q with
  | [] => []
  | n :: _ => [n]
  end.

End XML.

(** ** The objects the script builds *)

(** A booking read from [xml/roomBookings.xml]. *)
Module Booking.
Record t : Type := mk {
  number : string;
  checkin : string;
  checkout : string
}.
End Booking.

(** A room read from [xml/hotelRooms.xml]. *)
Module Room.
Record t : Type := mk {
  number : string;
  type : string;
  price : string
}.
End Room.

(** The pending booking [newBooking] of [submitBookRoom]. *)
Module NewBooking.
Record t : Type := mk {
  number : JS.value;
  checkin : JS.value;
  checkout : JS.value;
  name : string
}.
End NewBooking.

(** ** The browser: page, clock, requests in flight and the local store *)

Module Browser.

(** The elements the script addresses.  [findRoomForm_inputs] stands for
    the match of ["#findRoomForm :input"]. *)
Inductive id : Type :=
| checkinday | checkinmonth | checkinyear
| checkoutday | checkoutmonth | checkoutyear
| checkinError | checkoutError
| checkinDate | checkoutDate
| findRoomForm_inputs | searchingForRooms
| roomSelection | bookRoomForm
| bookingName | nameError.

Definition id_eq_dec (i j : id) : {i = j} + {i <> j}.
Proof. decide equality. Defined.

(** An [<option>] element. *)
Record option_element : Type := mkOption {
  option_value : string;
  option_text : string
}.

Record element : Type := mkElement {
  value : JS.value;
  text : string;
  visible : bool;
  disabled : bool;
  options : list option_element
}.

(** The closure a request in flight will run on success. *)
Inductive request : Type :=
| GetRooms (checkin checkout : string)
| GetBookings (checkin checkout : string) (rooms : list Room.t).

Record Date : Type := mkDate {
  getDate : Z;
  getMonth : Z;
  getFullYear : Z
}.

Inductive access : Type :=
| Loaded
| Saved (bookings : list NewBooking.t).

Record world : Type := mkWorld {
  page : id -> element;
  now : Date;
  inflight : list request;
  localBookings : list NewBooking.t;
  storeLog : list access
}.

(** Code with effects on the world. *)
Definition M (A : Type) : Type := world -> A * world.

Definition ret {A} (a : A) : M A := fun w => (a, w).

Definition bind {A B} (c : M A) (k : A -> M B) : M B :=
  fun w => let (a, w') := c w in k a w'.

Definition exec {A} (c : M A) (w : world) : world := snd (c w).
Definition result {A} (c : M A) (w : world) : A := fst (c w).

Definition update (i : id) (f : element -> element) : M unit :=
  fun w =>
    (tt, mkWorld (fun j => if id_eq_dec i j then f (page w j) else page w j)
                 (now w) (inflight w) (localBookings w) (storeLog w)).

(** [$(i).val()] and [$(i).val(v)] *)
Definition val (i : id) : M JS.value := fun w => (value (page w i), w).

Definition set_val (i : id) (v : JS.value) : M unit :=
  update i (fun e => mkElement v (text e) (visible e) (disabled e) (options e)).

(** [$(i).text(s)] *)
Definition set_text (i : id) (s : string) : M unit :=
  update i (fun e => mkElement (value e) s (visible e) (disabled e) (options e)).

(** [$(i).show()] and [$(i).hide()] *)
Definition show (i : id) : M unit :=
  update i (fun e => mkElement (value e) (text e) true (disabled e) (options e)).

Definition hide (i : id) : M unit :=
  update i (fun e => mkElement (value e) (text e) false (disabled e) (options e)).

(** [$(i).prop("disabled", b)] *)
Definition prop_disabled (i : id) (b : bool) : M unit :=
  update i (fun e => mkElement (value e) (text e) (visible e) b (options e)).

(** [$(i).append($("<option>").attr("value", v).text(t))]: the option is
    put after the ones the select holds.  A select without options has
    none selected; the first one appended becomes the selected one, and
    [.val()] is its value from then on. *)
Definition append_option (i : id) (v t : string) : M unit :=
  update i (fun e =>
              mkElement match options e with
                        | [] => JS.Str v
                        | _ :: _ => value e
                        end
                        (text e) (visible e) (disabled e)
                        (options e ++ [mkOption v t])%list).

(** [$(selector).hide()] for a selector that matches no element. *)
Definition hide_nothing : M unit := ret tt.

(** [$.trim(v)]: the empty string for [null] and [undefined], else the
    string without its leading and trailing white space. *)
Definition trim (v : JS.value) : string :=
  match v with
  | JS.Undefined | JS.Null => ""
  | JS.Str s => JS.trim s
  end.

(** [new Date()] *)
Definition new_Date : M Date := fun w => (now w, w).

(** [$.ajax({...})]: the request leaves; its callbacks run later. *)
Definition ajax (r : request) : M unit :=
  fun w => (tt, mkWorld (page w) (now w) (inflight w ++ [r])%list
                        (localBookings w) (storeLog w)).

(** Modelled from the spec: [loadLocalBookings] is called by
    [submitBookRoom] and defined nowhere in the file.  The Local Booking
    Store holds one list of pending bookings, read and written wholesale
    ([localBookings] of the world); [storeLog] records each access. *)
Definition loadLocalBookings : M (list NewBooking.t) :=
  fun w => (localBookings w,
            mkWorld (page w) (now w) (inflight w) (localBookings w)
                    (storeLog w ++ [Loaded])%list).

(** Modelled from the spec: [saveLocalBookings], missing from the file
    like [loadLocalBookings], replaces the stored list by the one given. *)
Definition saveLocalBookings (l : list NewBooking.t) : M unit :=
  fun w => (tt, mkWorld (page w) (now w) (inflight w) l
                        (storeLog w ++ [Saved l])%list).

End Browser.

Declare Scope js_scope.
Delimit Scope js_scope with js.
Notation "x <- c1 ;; c2" := (Browser.bind c1 (fun x => c2))
(at level 61, c1 at next level, right associativity) : js_scope.
Notation "c1 ;; c2" := (Browser.bind c1 (fun _ => c2))
(at level 61, right associativity) : js_scope.

(** ** The module [BookRooms] *)

Module BookRooms.

Import Browser.
Open Scope js_scope.

(** [makeDateFromXML(xmlDate)] *)
Definition makeDateFromXML (xmlDate : XML.query) : string :=
  let dd := XML.text (XML.find "day" xmlDate) in
  let dd := if JS.string_lt_10 dd then "0" ++ dd else dd in
  let mm := XML.text (XML.find "month" xmlDate) in
  let mm := if JS.string_lt_10 mm then "0" ++ mm else mm in
  let yyyy := XML.text (XML.find "year" xmlDate) in
  yyyy ++ "-" ++ mm ++ "-" ++ dd.

(** [checkAvailable(room, checkin, checkout, bookings)]: the [for] loop
    leaves with [false] at the first booking of the room that overlaps. *)
Fixpoint checkAvailable (room checkin checkout : string)
         (bookings : list Booking.t) : bool :=
  match bookings with
  | [] => true
  | b :: rest =>
      if JS.strict_eq (Booking.number b) room then
        if JS.lt (Booking.checkin b) checkout
           && JS.gt (Booking.checkout b) checkin
        then false
        else checkAvailable room checkin checkout rest
      else checkAvailable room checkin checkout rest
  end.

(** [parseBookingXML(data)]: [each] visits the matched elements in
    document order and [push] appends. *)
Definition parseBookingXML (data : XML.node) : list Booking.t :=
  fold_left
    (fun bookings this =>
       let number := XML.text (XML.first (XML.find "number" (XML.wrap this))) in
       let checkin := makeDateFromXML (XML.first (XML.find "checkin" (XML.wrap this))) in
       let checkout := makeDateFromXML (XML.first (XML.find "checkout" (XML.wrap this))) in
       JS.push bookings (Booking.mk number checkin checkout))
    (XML.find "booking" (XML.wrap data)) [].

(** [parseRoomXML(data)] *)
Definition parseRoomXML (data : XML.node) : list Room.t :=
  fold_left
    (fun rooms this =>
       let number := XML.text (XML.first (XML.find "number" (XML.wrap this))) in
       let type := XML.text (XML.first (XML.find "roomType" (XML.wrap this))) in
       let price := XML.text (XML.first (XML.find "pricePerNight" (XML.wrap this))) in
       JS.push rooms (Room.mk number type price))
    (XML.find "hotelRoom" (XML.wrap data)) [].

(** [rooms.forEach(f)] *)
Fixpoint forEach {A} (l : list A) (f : A -> M unit) : M unit :=
  match l with
  | [] => ret tt
  | x :: l' => f x ;; forEach l' f
  end.

(** [setupBookRoom(checkin, checkout)] sends the request for the rooms and
    returns; [rooms] and [bookings], the variables of its closure, are
    set by the [success] callbacks and read by the [done] callbacks
    below. *)
Definition setupBookRoom (checkin checkout : string) : M unit :=
  ajax (GetRooms checkin checkout).

(** The [done] callback of the first request: the bookings are
    requested. *)
Definition roomsDone (checkin checkout : string) (rooms : list Room.t)
  : M unit :=
  ajax (GetBookings checkin checkout rooms).

(** The [done] callback of the second request: one option per available
    room, then the booking form is shown. *)
Definition bookingsDone (checkin checkout : string) (rooms : list Room.t)
           (bookings : list Booking.t) : M unit :=
  forEach rooms
    (fun room =>
       if checkAvailable (Room.number room) checkin checkout bookings then
         append_option roomSelection (Room.number room)
                       (Room.number room ++ ": " ++ Room.price room)
       else ret tt) ;;
  show bookRoomForm.

(** [getDateFromForm(dayElementID, monthElementID, yearElementID)] *)
Definition getDateFromForm (dayElementID monthElementID yearElementID : id)
  : M string :=
  dd <- val dayElementID ;;
  mm <- val monthElementID ;;
  yyyy <- val yearElementID ;;
  ret (JS.to_string yyyy ++ "-" ++ JS.to_string mm ++ "-" ++ JS.to_string dd).

(** [getTodaysDate()]: a day or month that is not padded stays a Number
    and is converted by the concatenation. *)
Definition getTodaysDate : M string :=
  today <- new_Date ;;
  let dd := getDate today in
  let mm := (getMonth today + 1)%Z in
  let yyyy := getFullYear today in
  let dd := if (dd <? 10)%Z then "0" ++ JS.Number_to_string dd
            else JS.Number_to_string dd in
  let mm := if (mm <? 10)%Z then "0" ++ JS.Number_to_string mm
            else JS.Number_to_string mm in
  ret (JS.Number_to_string yyyy ++ "-" ++ mm ++ "-" ++ dd).

(** [submitFindRoom()] *)
Definition submitFindRoom : M bool :=
  let isValid := true in
  checkin <- getDateFromForm checkinday checkinmonth checkinyear ;;
  isValid <-
    (if negb (JS.truthy (JS.Str checkin)) then
       set_text checkinError "You must enter a check in date." ;;
       ret false
     else
       today <- getTodaysDate ;;
       if JS.lt checkin today then
         set_text checkinError "You can't book in the past." ;;
         ret false
       else
         set_text checkinError "" ;;
         ret isValid) ;;
  checkout <- getDateFromForm checkoutday checkoutmonth checkoutyear ;;
  isValid <-
    (if negb (JS.truthy (JS.Str checkout)) then
       set_text checkoutError "You must enter a check out date." ;;
       ret false
     else if JS.lt checkout checkin then
       set_text checkoutError "You can't check out before you check in." ;;
       ret false
     else if JS.strict_eq checkout checkin then
       set_text checkoutError "You must stay at least one night." ;;
       ret false
     else
       set_text checkoutError "" ;;
       ret isValid) ;;
  (if isValid then
     set_val checkinDate (JS.Str checkin) ;;
     set_val checkoutDate (JS.Str checkout) ;;
     prop_disabled findRoomForm_inputs true ;;
     show searchingForRooms ;;
     setupBookRoom checkin checkout
   else ret tt) ;;
  ret false.

(** [submitBookRoom()].  The call [$("bookRoomForm").hide()] has a selector
    without [#]: it matches elements of tag [bookRoomForm], of which a page
    has none, and hides nothing. *)
Definition submitBookRoom : M bool :=
  number <- val roomSelection ;;
  checkin <- val checkinDate ;;
  checkout <- val checkoutDate ;;
  name <- val bookingName ;;
  let newBooking := NewBooking.mk number checkin checkout (trim name) in
  if negb (JS.truthy (JS.Str (NewBooking.name newBooking))) then
    set_text nameError "You must enter a booking name" ;;
    ret false
  else
    set_text nameError "" ;;
    localBookings <- loadLocalBookings ;;
    let localBookings := JS.push localBookings newBooking in
    saveLocalBookings localBookings ;;
    hide_nothing ;;
    ret true.

(** [pub.setup] hides the booking form and binds the two handlers. *)
Definition setup : M unit := hide bookRoomForm.

(** What the page does with the value a submit handler returns: jQuery
    prevents the default action (the navigation) when it is [false]. *)
Definition suppresses_default (returned : bool) : bool := negb returned.

(** The events after [setup]: a form is submitted, or the request at
    position [k] of [inflight] completes, with the document or with an
    error.  On success the [success] callback runs first, then the [done]
    callback; on an error the script has no callback.  What the browser
    does after a submit that is not suppressed is outside the script. *)
Inductive event : Type :=
| SubmitFindRoomForm
| SubmitBookRoomForm
| Completes (k : nat) (response : option XML.node).

Definition remove_inflight (k : nat) : M unit :=
  fun w => (tt, mkWorld (page w) (now w)
                        (firstn k (inflight w) ++ skipn (S k) (inflight w))%list
                        (localBookings w) (storeLog w)).

Definition handle (e : event) : M unit :=
  match e with
  | SubmitFindRoomForm => submitFindRoom ;; ret tt
  | SubmitBookRoomForm => submitBookRoom ;; ret tt
  | Completes k response =>
      fun w =>
        match nth_error (inflight w) k, response with
        | Some (GetRooms ci co), Some data =>
            (remove_inflight k ;;
             let rooms := parseRoomXML data in
             roomsDone ci co rooms) w
        | Some (GetBookings ci co rooms), Some data =>
            (remove_inflight k ;;
             let bookings := parseBookingXML data in
             bookingsDone ci co rooms bookings) w
        | Some _, None => remove_inflight k w
        | None, _ => (tt, w)
        end
  end.

Fixpoint run (es : list event) : M unit :=
  match es with
  | [] => ret tt
  | e :: es' => handle e ;; run es'
  end.

End BookRooms.

Import Browser BookRooms.
Open Scope js_scope.

(** ** Vocabulary of the specification *)

(** *** Availability *)

(** The overlap test on the half-open ranges [[checkin, checkout)]. *)
Definition overlaps (b : Booking.t) (checkin checkout : string) : Prop :=
  JS.lt (Booking.checkin b) checkout = true /\
  JS.gt (Booking.checkout b) checkin = true.

Definition conflicts (room checkin checkout : string) (b : Booking.t) : Prop :=
  Booking.number b = room /\ overlaps b checkin checkout.

(** *** Dates *)

Definition digit (n : N) : ascii := ascii_of_N (48 + n).

Definition two_digits (n : N) : string :=
  String (digit (n / 10)) (String (digit (n mod 10)) "").

Definition four_digits (n : N) : string :=
  two_digits (n / 100) ++ two_digits (n mod 100).

(** The decimal numeral of [n], without sign or leading zero. *)
Definition decimal (n : N) : string := NilZero.string_of_uint (N.to_uint n).

Record calendar_date : Type := mkCalendarDate {
  year : N;
  month : N;
  day : N
}.

(** The form [yyyy-mm-dd]. *)
Definition canonical (d : calendar_date) : string :=
  four_digits (year d) ++ "-" ++ two_digits (month d) ++ "-" ++ two_digits (day d).

(** The dates that have a form [yyyy-mm-dd]; the script checks no calendar. *)
Definition writable (d : calendar_date) : Prop :=
  (year d < 10000 /\ month d < 100 /\ day d < 100)%N.

(** Chronological order. *)
Definition earlier (a b : calendar_date) : Prop :=
  (year a < year b \/
   (year a = year b /\
    (month a < month b \/ (month a = month b /\ day a < day b))))%N.

Definition clock_date (c : Date) : calendar_date :=
  mkCalendarDate (Z.to_N (getFullYear c)) (Z.to_N (getMonth c + 1))
                 (Z.to_N (getDate c)).

(** A clock in a year of four digits. *)
Definition clock_in_range (c : Date) : Prop :=
  (1000 <= getFullYear c <= 9999 /\ 0 <= getMonth c <= 11 /\
   1 <= getDate c <= 31)%Z.

(** A string that denotes a number. *)
Definition is_numeric (s : string) : bool :=
  match JS.StringToNumber s with
  | JS.NaN => false
  | _ => true
  end.

Fixpoint all_white_space (s : string) : bool :=
  match s with
  | "" => true
  | String c s' => JS.is_white_space c && all_white_space s'
  end.

(** *** What the handlers read and leave behind *)

Definition form_checkin (w : world) : string :=
  result (getDateFromForm checkinday checkinmonth checkinyear) w.

Definition form_checkout (w : world) : string :=
  result (getDateFromForm checkoutday checkoutmonth checkoutyear) w.

Definition today (w : world) : string := result getTodaysDate w.

Definition checkin_verdict (checkin today : string) : string :=
  if checkin =? "" then "You must enter a check in date."
  else if JS.lt checkin today then "You can't book in the past."
  else "".

Definition checkout_verdict (checkout checkin : string) : string :=
  if checkout =? "" then "You must enter a check out date."
  else if JS.lt checkout checkin then "You can't check out before you check in."
  else if JS.strict_eq checkout checkin then "You must stay at least one night."
  else "".

Definition with_text (i : id) (s : string) (w : world) : world :=
  exec (set_text i s) w.

(** The world after the block guarded by [isValid]. *)
Definition search_started (checkin checkout : string) (w : world) : world :=
  exec (set_val checkinDate (JS.Str checkin) ;;
        set_val checkoutDate (JS.Str checkout) ;;
        prop_disabled findRoomForm_inputs true ;;
        show searchingForRooms ;;
        setupBookRoom checkin checkout) w.

Definition new_booking (w : world) : NewBooking.t :=
  NewBooking.mk (value (page w roomSelection)) (value (page w checkinDate))
                (value (page w checkoutDate)) (trim (value (page w bookingName))).

(** The options of the room selection. *)
Definition listed (w : world) : list option_element :=
  options (page w roomSelection).

Definition option_of (room : Room.t) : option_element :=
  mkOption (Room.number room) (Room.number room ++ ": " ++ Room.price room).

Definition available_rooms (checkin checkout : string) (rooms : list Room.t)
           (bookings : list Booking.t) : list Room.t :=
  filter (fun r => checkAvailable (Room.number r) checkin checkout bookings) rooms.

(** A request for the bookings carries the rooms loaded from a document
    that one of the events [es] delivered. *)
Definition loaded_by (es : list event) (r : request) : Prop :=
  match r with
  | GetRooms _ _ => True
  | GetBookings _ _ rooms =>
      exists (k : nat) (data : XML.node),
        In (Completes k (Some data)) es /\ rooms = parseRoomXML data
  end.

(** *** The fields of a loaded record, in the words of the specification *)

(** The text of the first sub-element of that name; the empty string when
    there is none. *)
Definition field_text (name : string) (this : XML.node) : string :=
  match XML.find name (XML.wrap this) with
  | [] => ""
  | n :: _ => XML.textContent n
  end.

(** A day or month as the date holds it: with one zero before it when the
    text converts to a number below 10, else as it is. *)
Definition zero_padded (s : string) : string :=
  if JS.string_lt_10 s then "0" ++ s else s.

(** The texts of year, month and day joined by dashes. *)
Definition joined_date (xmlDate : XML.query) : string :=
  XML.text (XML.find "year" xmlDate) ++ "-" ++
  zero_padded (XML.text (XML.find "month" xmlDate)) ++ "-" ++
  zero_padded (XML.text (XML.find "day" xmlDate)).

(** The date read from the first sub-element of that name; [-0-0] when
    there is none. *)
Definition date_field (name : string) (this : XML.node) : string :=
  match XML.find name (XML.wrap this) with
  | [] => "-0-0"
  | n :: _ => joined_date (XML.wrap n)
  end.

(** The records the two loaders build from one element. *)
Definition room_of (this : XML.node) : Room.t :=
  Room.mk (XML.text (XML.first (XML.find "number" (XML.wrap this))))
          (XML.text (XML.first (XML.find "roomType" (XML.wrap this))))
          (XML.text (XML.first (XML.find "pricePerNight" (XML.wrap this)))).

Definition booking_of (this : XML.node) : Booking.t :=
  Booking.mk (XML.text (XML.first (XML.find "number" (XML.wrap this))))
             (makeDateFromXML (XML.first (XML.find "checkin" (XML.wrap this))))
             (makeDateFromXML (XML.first (XML.find "checkout" (XML.wrap this)))).

(** *** Sample pages and documents *)

Definition filled_form (cid cim ciy cod com coy name : string) : id -> element :=
  fun i =>
    mkElement
      (JS.Str match i with
              | checkinday => cid | checkinmonth => cim | checkinyear => ciy
              | checkoutday => cod | checkoutmonth => com | checkoutyear => coy
              | bookingName => name
              | _ => ""
              end)
      "" true false [].

(** A form whose check-in selects have no option selected. *)
Definition no_checkin_selected (cod com coy : string) : id -> element :=
  fun i =>
    mkElement
      match i with
      | checkinday | checkinmonth | checkinyear => JS.Null
      | checkoutday => JS.Str cod
      | checkoutmonth => JS.Str com
      | checkoutyear => JS.Str coy
      | _ => JS.Str ""
      end
      "" true false [].

Definition fresh_world (p : id -> element) (clock : Date) : world :=
  mkWorld p clock [] [] [].

(** 2 November 2026 *)
Definition a_clock : Date := mkDate 2 10 2026.

Definition an_element (tag content : string) : XML.node :=
  XML.Element tag [XML.Text content].

Definition date_element (tag day month year : string) : XML.node :=
  XML.Element tag
    [an_element "day" day; an_element "month" month; an_element "year" year].

Definition room_element (number type price : string) : XML.node :=
  XML.Element "hotelRoom"
    [an_element "number" number; an_element "roomType" type;
     an_element "pricePerNight" price].

Definition rooms_xml : XML.node :=
  XML.document
    (XML.Element "hotelRooms"
       [room_element "101" "Single" "100.00";
        room_element "102" "Double" "150.00";
        room_element "103" "Suite" "250.00"]).

Definition bookings_xml : XML.node :=
  XML.document
    (XML.Element "bookings"
       [XML.Element "booking"
          [an_element "number" "102";
           date_element "checkin" "9" "11" "2026";
           date_element "checkout" "20" "11" "2026"]]).

(** A booking without dates. *)
Definition undated_booking : XML.node :=
  XML.Element "booking" [an_element "number" "102"].

Definition undated_bookings_xml : XML.node :=
  XML.document (XML.Element "bookings" [undated_booking]).

(** Case analysis on the element an update addresses. *)
Ltac page_cases :=
  repeat match goal with
         | |- context [id_eq_dec ?i ?j] => destruct (id_eq_dec i j)
         end;
  reflexivity.

(** *** More vocabulary: ranges, documents and invariants *)

(** [a <= b] in the order of strings. *)
Definition js_le (a b : string) : Prop := JS.lt b a = false.

(** A night of the stay from [from] to [to], named by the day it begins:
    [from <= d < to]. *)
Definition night_of (d from to : calendar_date) : Prop :=
  ~ earlier d from /\ earlier d to.

(** A booking whose two dates are the days [from] and [to], in the form
    yyyy-mm-dd, with at least one night. *)
Definition dated (b : Booking.t) (from to : calendar_date) : Prop :=
  writable from /\ writable to /\ earlier from to /\
  Booking.checkin b = canonical from /\ Booking.checkout b = canonical to.

(** A date element that holds the day, month and year of [d] as plain
    decimal numerals. *)
Definition reads_date (xmlDate : XML.query) (d : calendar_date) : Prop :=
  XML.text (XML.find "day" xmlDate) = decimal (day d) /\
  XML.text (XML.find "month" xmlDate) = decimal (month d) /\
  XML.text (XML.find "year" xmlDate) = decimal (year d).

(** A day the XML files can hold so that it loads in the form yyyy-mm-dd:
    a year of four digits. *)
Definition plain_date (d : calendar_date) : Prop :=
  (1000 <= year d < 10000 /\ month d < 100 /\ day d < 100)%N.

(** The catalog document with one [hotelRoom] element for each room. *)
Definition rooms_document (rooms : list Room.t) : XML.node :=
  XML.document
    (XML.Element "hotelRooms"
       (map (fun r => room_element (Room.number r) (Room.type r) (Room.price r))
            rooms)).

(** A stay as the bookings file records it. *)
Record stay : Type := mkStay {
  stay_room : string;
  stay_from : calendar_date;
  stay_to : calendar_date
}.

Definition plain_date_element (tag : string) (d : calendar_date) : XML.node :=
  date_element tag (decimal (day d)) (decimal (month d)) (decimal (year d)).

Definition booking_element (s : stay) : XML.node :=
  XML.Element "booking"
    [an_element "number" (stay_room s);
     plain_date_element "checkin" (stay_from s);
     plain_date_element "checkout" (stay_to s)].

Definition bookings_document (stays : list stay) : XML.node :=
  XML.document (XML.Element "bookings" (map booking_element stays)).

Definition booking_of_stay (s : stay) : Booking.t :=
  Booking.mk (stay_room s) (canonical (stay_from s)) (canonical (stay_to s)).

(** The completion of a request, as opposed to a submit. *)
Definition is_response (e : event) : Prop :=
  match e with
  | Completes _ _ => True
  | _ => False
  end.

(** A stored name as [submitBookRoom] accepts it: not empty, and without
    white space at either end. *)
Definition accepted_name (b : NewBooking.t) : Prop :=
  NewBooking.name b <> "" /\ JS.trim (NewBooking.name b) = NewBooking.name b.

(** The guest picks a room and types a name. *)
Definition guest_enters (room : JS.value) (name : string) : M unit :=
  set_val roomSelection room ;; set_val bookingName (JS.Str name).

(** The stays of a room that share a night with the stay from [ci] to
    [co]. *)
Definition shares_night (s : stay) (ci co : calendar_date) : Prop :=
  exists d, night_of d (stay_from s) (stay_to s) /\ night_of d ci co.

(** Two worlds that differ at most in the room selection, the options of
    the page's elements, their visibility and the requests in flight. *)
Definition same_inputs_and_store (w w' : world) : Prop :=
  (forall i, i <> roomSelection -> value (page w' i) = value (page w i)) /\
  localBookings w' = localBookings w /\
  storeLog w' = storeLog w.

(** ** Strings *)

Lemma string_compare_refl (s : string) : String.compare s s = Eq.
Proof.
  induction s as [|c s IH]; simpl; [reflexivity|].
  replace (Ascii.compare c c) with Eq; [exact IH|].
  symmetry. unfold Ascii.compare. apply N.compare_refl.
Qed.

Lemma js_lt_irrefl (s : string) : JS.lt s s = false.
Proof. unfold JS.lt, String.ltb. now rewrite string_compare_refl. Qed.

(** Strings of one length are compared before what follows them. *)
Lemma compare_append (x y s t : string) :
  String.length x = String.length y ->
  String.compare (x ++ s) (y ++ t) =
  match String.compare x y with
  | Eq => String.compare s t
  | c => c
  end.
Proof.
  revert y. induction x as [|a x IH]; intros [|b y] Hlen; try discriminate.
  - reflexivity.
  - simpl in *. destruct (Ascii.compare a b); auto.
Qed.

Lemma length_append (s t : string) :
  String.length (s ++ t) = String.length s + String.length t.
Proof. induction s as [|c s IH]; simpl; [reflexivity | now rewrite IH]. Qed.

(** A check that holds on the first [n] numbers holds below [n]. *)
Lemma below_all (P : N -> bool) (n : nat) :
  forallb P (map N.of_nat (seq 0 n)) = true ->
  forall k, (k < N.of_nat n)%N -> P k = true.
Proof.
  intros H k Hk. rewrite forallb_forall in H. apply H.
  apply in_map_iff. exists (N.to_nat k). split; [apply N2Nat.id|].
  apply in_seq. lia.
Qed.

(** *** [$.trim] *)

Lemma trim_start_blank (s : string) :
  all_white_space s = true -> JS.trim_start s = "".
Proof.
  induction s as [|c s IH]; simpl; [reflexivity|].
  intros H. apply andb_true_iff in H as [Hc Hs]. rewrite Hc. auto.
Qed.

Lemma trim_start_not_blank (s : string) :
  all_white_space s = false ->
  exists c s', JS.trim_start s = String c s' /\ JS.is_white_space c = false.
Proof.
  induction s as [|c s IH]; simpl; [discriminate|].
  destruct (JS.is_white_space c) eqn:Hc; simpl; [exact IH|].
  intros _. now exists c, s.
Qed.

Lemma trim_empty_iff (s : string) :
  JS.trim s = "" <-> all_white_space s = true.
Proof.
  unfold JS.trim. split.
  - intros H. destruct (all_white_space s) eqn:E; [reflexivity|].
    destruct (trim_start_not_blank s E) as (c & s' & Hs & Hc).
    rewrite Hs in H. simpl in H. rewrite Hc in H. discriminate.
  - intros H. now rewrite trim_start_blank.
Qed.

Lemma trim_not_empty (s : string) :
  all_white_space s = false -> (JS.trim s =? "") = false.
Proof.
  intros H. apply String.eqb_neq. intros E.
  apply trim_empty_iff in E. congruence.
Qed.

(** ** Dates in the form yyyy-mm-dd *)

Lemma compare_two_digits (a b : N) :
  (a < 100)%N -> (b < 100)%N ->
  String.compare (two_digits a) (two_digits b) = (a ?= b)%N.
Proof.
  intros Ha Hb.
  assert (H : forallb (fun a => forallb (fun b =>
             match String.compare (two_digits a) (two_digits b), (a ?= b)%N with
             | Eq, Eq | Lt, Lt | Gt, Gt => true
             | _, _ => false
             end) (map N.of_nat (seq 0 100))) (map N.of_nat (seq 0 100)) = true)
    by (vm_compute; reflexivity).
  pose proof (below_all _ _ H a Ha) as H1. cbv beta in H1.
  pose proof (below_all _ _ H1 b Hb) as H2. cbv beta in H2.
  destruct (String.compare (two_digits a) (two_digits b)), (a ?= b)%N;
    congruence.
Qed.

Lemma lex_compare (q1 q2 r1 r2 k : N) :
  (r1 < k)%N -> (r2 < k)%N ->
  match (q1 ?= q2)%N with
  | Eq => (r1 ?= r2)%N
  | c => c
  end = (k * q1 + r1 ?= k * q2 + r2)%N.
Proof.
  intros H1 H2.
  destruct (N.compare_spec q1 q2) as [->|Hq|Hq].
  - destruct (N.compare_spec r1 r2) as [->|Hr|Hr]; symmetry.
    + apply N.compare_refl.
    + apply N.compare_lt_iff. lia.
    + apply N.compare_gt_iff. lia.
  - symmetry. apply N.compare_lt_iff. nia.
  - symmetry. apply N.compare_gt_iff. nia.
Qed.

Lemma compare_four_digits (a b : N) :
  (a < 10000)%N -> (b < 10000)%N ->
  String.compare (four_digits a) (four_digits b) = (a ?= b)%N.
Proof.
  intros Ha Hb. unfold four_digits.
  assert (Hqa : (a / 100 < 100)%N) by (apply N.Div0.div_lt_upper_bound; lia).
  assert (Hqb : (b / 100 < 100)%N) by (apply N.Div0.div_lt_upper_bound; lia).
  assert (Hra : (a mod 100 < 100)%N) by (apply N.mod_lt; lia).
  assert (Hrb : (b mod 100 < 100)%N) by (apply N.mod_lt; lia).
  rewrite compare_append by reflexivity.
  rewrite !compare_two_digits by assumption.
  rewrite (lex_compare _ _ _ _ 100) by assumption.
  now rewrite <- !N.div_mod'.
Qed.

Lemma earlier_asym (a b : calendar_date) : earlier a b -> ~ earlier b a.
Proof. unfold earlier. lia. Qed.

Lemma earlier_irrefl (a : calendar_date) : ~ earlier a a.
Proof. unfold earlier. lia. Qed.

Section CanonicalOrder.

Variables a b : calendar_date.
Hypothesis Ha : writable a.
Hypothesis Hb : writable b.

(** On the form yyyy-mm-dd the order of the strings is the order of the
    years, then of the months, then of the days. *)
Lemma compare_canonical :
  String.compare (canonical a) (canonical b) =
  match (year a ?= year b)%N with
  | Eq => match (month a ?= month b)%N with
          | Eq => (day a ?= day b)%N
          | c => c
          end
  | c => c
  end.
Proof.
  destruct Ha as (Hy1 & Hm1 & Hd1), Hb as (Hy2 & Hm2 & Hd2). unfold canonical.
  rewrite compare_append by reflexivity.
  rewrite compare_four_digits by assumption.
  destruct (year a ?= year b)%N; try reflexivity.
  change ("-" ++ ?s) with (String "-" s). cbn [String.compare].
  change (Ascii.compare "-" "-") with Eq. cbv iota.
  rewrite compare_append by reflexivity.
  rewrite compare_two_digits by assumption.
  destruct (month a ?= month b)%N; try reflexivity.
  change ("-" ++ ?s) with (String "-" s). cbn [String.compare].
  change (Ascii.compare "-" "-") with Eq. cbv iota.
  now apply compare_two_digits.
Qed.

Lemma lt_canonical : JS.lt (canonical a) (canonical b) = true <-> earlier a b.
Proof.
  unfold JS.lt, String.ltb, earlier. rewrite compare_canonical.
  destruct (N.compare_spec (year a) (year b)) as [Hy|Hy|Hy];
    [destruct (N.compare_spec (month a) (month b)) as [Hm|Hm|Hm];
       [destruct (N.compare_spec (day a) (day b)) as [Hd|Hd|Hd]|..]|..];
    split; intros H; try discriminate; try reflexivity; try lia.
Qed.

Lemma lt_canonical_false :
  ~ earlier a b -> JS.lt (canonical a) (canonical b) = false.
Proof.
  intros H. destruct (JS.lt (canonical a) (canonical b)) eqn:E; [|reflexivity].
  apply lt_canonical in E. contradiction.
Qed.

Lemma eq_canonical : canonical a = canonical b -> a = b.
Proof.
  intros H. pose proof compare_canonical as Hc.
  rewrite H, string_compare_refl in Hc.
  destruct a as [ya ma da], b as [yb mb db]; simpl in *.
  destruct (N.compare_spec ya yb); try discriminate.
  destruct (N.compare_spec ma mb); try discriminate.
  destruct (N.compare_spec da db); try discriminate.
  congruence.
Qed.

Lemma strict_eq_canonical_false :
  a <> b -> JS.strict_eq (canonical a) (canonical b) = false.
Proof.
  intros H. apply String.eqb_neq. intros E. apply H. now apply eq_canonical.
Qed.

End CanonicalOrder.

Lemma canonical_not_empty (d : calendar_date) : (canonical d =? "") = false.
Proof. reflexivity. Qed.

(** *** Padding *)

Lemma Number_to_string_four_digits (z : Z) :
  (1000 <= z <= 9999)%Z -> JS.Number_to_string z = four_digits (Z.to_N z).
Proof.
  intros Hz.
  assert (H : forallb (fun n => (n <? 1000)%N ||
                         (JS.Number_to_string (Z.of_N n) =? four_digits n))
                (map N.of_nat (seq 0 (100 * 100))) = true)
    by (vm_compute; reflexivity).
  pose proof (below_all _ _ H (Z.to_N z)) as Hn. cbv beta in Hn.
  rewrite Z2N.id in Hn by lia.
  destruct (Z.to_N z <? 1000)%N eqn:Hlt.
  - apply N.ltb_lt in Hlt. lia.
  - apply String.eqb_eq. apply Hn. lia.
Qed.

Lemma Number_padded_two_digits (z : Z) :
  (0 <= z < 100)%Z ->
  (if (z <? 10)%Z then "0" ++ JS.Number_to_string z else JS.Number_to_string z)
  = two_digits (Z.to_N z).
Proof.
  intros Hz.
  assert (H : forallb (fun n =>
                 (if (Z.of_N n <? 10)%Z then "0" ++ JS.Number_to_string (Z.of_N n)
                  else JS.Number_to_string (Z.of_N n)) =? two_digits n)
                (map N.of_nat (seq 0 100)) = true)
    by (vm_compute; reflexivity).
  pose proof (below_all _ _ H (Z.to_N z)) as Hn. cbv beta in Hn.
  rewrite Z2N.id in Hn by lia.
  apply String.eqb_eq. apply Hn. lia.
Qed.

Lemma string_padded_two_digits (n : N) :
  (n < 100)%N ->
  (if JS.string_lt_10 (decimal n) then "0" ++ decimal n else decimal n)
  = two_digits n.
Proof.
  intros Hn.
  assert (H : forallb (fun n =>
                 (if JS.string_lt_10 (decimal n) then "0" ++ decimal n
                  else decimal n) =? two_digits n)
                (map N.of_nat (seq 0 100)) = true)
    by (vm_compute; reflexivity).
  apply String.eqb_eq. exact (below_all _ _ H n Hn).
Qed.

(** With a year of four digits [getTodaysDate] gives the form yyyy-mm-dd. *)
Lemma clock_canonical (w : world) :
  clock_in_range (now w) -> today w = canonical (clock_date (now w)).
Proof.
  intros (Hy & Hm & Hd).
  unfold today, result, getTodaysDate, new_Date, bind, ret, canonical, clock_date.
  cbn [fst year month day].
  rewrite Number_to_string_four_digits by assumption.
  rewrite !Number_padded_two_digits by lia.
  reflexivity.
Qed.

Lemma clock_writable (c : Date) : clock_in_range c -> writable (clock_date c).
Proof.
  intros (Hy & Hm & Hd). unfold writable, clock_date; cbn [year month day]. lia.
Qed.

(** ** The effects of the page operations *)

Lemma exec_bind {A B : Type} (c : M A) (k : A -> M B) (w : world) :
  exec (bind c k) w = exec (k (result c w)) (exec c w).
Proof. unfold exec, result, bind. now destruct (c w). Qed.

Lemma getDateFromForm_run d m y w :
  getDateFromForm d m y w = (result (getDateFromForm d m y) w, w).
Proof. reflexivity. Qed.

Lemma getTodaysDate_run w : getTodaysDate w = (today w, w).
Proof. reflexivity. Qed.

Lemma set_text_run i s w : set_text i s w = (tt, with_text i s w).
Proof. reflexivity. Qed.

Lemma text_with_text i s w j :
  text (page (with_text i s w) j) = if id_eq_dec i j then s else text (page w j).
Proof.
  unfold with_text, exec, set_text, update. cbn [snd page]. page_cases.
Qed.

Lemma options_with_text i s w j :
  options (page (with_text i s w) j) = options (page w j).
Proof.
  unfold with_text, exec, set_text, update. cbn [snd page]. page_cases.
Qed.

Lemma getDateFromForm_with_text d m y i s w :
  result (getDateFromForm d m y) (with_text i s w) =
  result (getDateFromForm d m y) w.
Proof.
  unfold result, getDateFromForm, with_text, exec, set_text, update, val, bind, ret.
  cbv beta iota zeta delta [fst snd page value]. page_cases.
Qed.

Lemma search_started_inflight ci co w :
  inflight (search_started ci co w) = (inflight w ++ [GetRooms ci co])%list.
Proof. reflexivity. Qed.

Lemma search_started_text ci co w j :
  text (page (search_started ci co w) j) = text (page w j).
Proof.
  unfold search_started, exec, bind, set_val, prop_disabled, show,
    setupBookRoom, ajax, update.
  cbn [snd page]. page_cases.
Qed.

Lemma search_started_options ci co w j :
  options (page (search_started ci co w) j) = options (page w j).
Proof.
  unfold search_started, exec, bind, set_val, prop_disabled, show,
    setupBookRoom, ajax, update.
  cbn [snd page]. page_cases.
Qed.

Create Rewrite HintDb page_effects.
#[local] Hint Rewrite text_with_text options_with_text search_started_text
  search_started_options search_started_inflight : page_effects.

Lemma form_date_not_empty d m y w :
  (result (getDateFromForm d m y) w =? "") = false.
Proof.
  unfold result, getDateFromForm, val, bind, ret. cbn [fst].
  destruct (JS.to_string (value (page w y))); reflexivity.
Qed.

(** ** The submit handlers, step by step *)

(** [submitFindRoom] sets the two messages in turn and starts the search
    when both are empty. *)
Lemma submitFindRoom_run (w : world) :
  let ci := form_checkin w in
  let co := form_checkout w in
  let w2 := with_text checkoutError (checkout_verdict co ci)
              (with_text checkinError (checkin_verdict ci (today w)) w) in
  submitFindRoom w =
  (false,
   if (checkin_verdict ci (today w) =? "") && (checkout_verdict co ci =? "")
   then search_started ci co w2 else w2).
Proof.
  intros ci co.
  unfold submitFindRoom, bind at 1 2.
  rewrite getDateFromForm_run. fold (form_checkin w). fold ci.
  unfold checkin_verdict, checkout_verdict, JS.truthy.
  rewrite negb_involutive.
  destruct (ci =? "") eqn:E1.
  - unfold bind at 1. rewrite set_text_run.
    unfold bind, ret. rewrite getDateFromForm_run, getDateFromForm_with_text.
    fold (form_checkout w). fold co.
    rewrite negb_involutive.
    destruct (co =? "") eqn:E3; [rewrite set_text_run; reflexivity|].
    destruct (JS.lt co ci) eqn:E4; [rewrite set_text_run; reflexivity|].
    destruct (JS.strict_eq co ci) eqn:E5; rewrite set_text_run; reflexivity.
  - unfold bind at 1. rewrite getTodaysDate_run.
    destruct (JS.lt ci (today w)) eqn:E2.
    + unfold bind at 1. rewrite set_text_run.
      unfold bind, ret. rewrite getDateFromForm_run, getDateFromForm_with_text.
      fold (form_checkout w). fold co.
      rewrite negb_involutive.
      destruct (co =? "") eqn:E3; [rewrite set_text_run; reflexivity|].
      destruct (JS.lt co ci) eqn:E4; [rewrite set_text_run; reflexivity|].
      destruct (JS.strict_eq co ci) eqn:E5; rewrite set_text_run; reflexivity.
    + unfold bind at 1. rewrite set_text_run.
      unfold bind at 1 2, ret at 1.
      rewrite getDateFromForm_run, getDateFromForm_with_text.
      fold (form_checkout w). fold co.
      rewrite negb_involutive.
      destruct (co =? "") eqn:E3;
        [unfold bind, ret; rewrite set_text_run; reflexivity|].
      destruct (JS.lt co ci) eqn:E4;
        [unfold bind, ret; rewrite set_text_run; reflexivity|].
      destruct (JS.strict_eq co ci) eqn:E5;
        [unfold bind, ret; rewrite set_text_run; reflexivity|].
      unfold bind at 1. rewrite set_text_run.
      reflexivity.
Qed.

Lemma submitFindRoom_outcome (w : world) :
  let ci := form_checkin w in
  let co := form_checkout w in
  let w' := exec submitFindRoom w in
  result submitFindRoom w = false /\
  text (page w' checkinError) = checkin_verdict ci (today w) /\
  text (page w' checkoutError) = checkout_verdict co ci /\
  inflight w' =
    (if (checkin_verdict ci (today w) =? "") && (checkout_verdict co ci =? "")
     then inflight w ++ [GetRooms ci co] else inflight w)%list /\
  localBookings w' = localBookings w /\
  storeLog w' = storeLog w /\
  listed w' = listed w.
Proof.
  intros ci co w'. subst w'. unfold exec, result, listed.
  rewrite submitFindRoom_run. fold ci co. cbn [fst snd].
  destruct ((checkin_verdict ci (today w) =? "") && (checkout_verdict co ci =? ""));
    repeat split; autorewrite with page_effects; reflexivity.
Qed.

Lemma submitBookRoom_run (w : world) :
  submitBookRoom w =
  if NewBooking.name (new_booking w) =? "" then
    (false, with_text nameError "You must enter a booking name" w)
  else
    (true,
     exec (saveLocalBookings (JS.push (localBookings w) (new_booking w)))
          (exec loadLocalBookings (with_text nameError "" w))).
Proof.
  unfold submitBookRoom, bind at 1 2 3 4, val. fold (new_booking w).
  unfold JS.truthy. rewrite negb_involutive.
  destruct (NewBooking.name (new_booking w) =? ""); reflexivity.
Qed.

(** ** The loaders *)

Lemma fold_left_push {A B : Type} (f : A -> B) (l : list A) (acc : list B) :
  fold_left (fun acc x => JS.push acc (f x)) l acc = (acc ++ map f l)%list.
Proof.
  revert acc. induction l as [|x l IH]; intros acc; cbn [fold_left map].
  - now rewrite app_nil_r.
  - rewrite IH. unfold JS.push. now rewrite <- app_assoc.
Qed.

Lemma parseRoomXML_map (data : XML.node) :
  parseRoomXML data = map room_of (XML.find "hotelRoom" (XML.wrap data)).
Proof. unfold parseRoomXML. now rewrite (fold_left_push room_of). Qed.

Lemma parseBookingXML_map (data : XML.node) :
  parseBookingXML data = map booking_of (XML.find "booking" (XML.wrap data)).
Proof. unfold parseBookingXML. now rewrite (fold_left_push booking_of). Qed.

(** ** The callbacks of the room search *)

Lemma listed_append_option v t w :
  listed (exec (append_option roomSelection v t) w) =
  (listed w ++ [mkOption v t])%list.
Proof. reflexivity. Qed.

Lemma forEach_lists_available (ci co : string) (bookings : list Booking.t)
      (rooms : list Room.t) (w : world) :
  listed (exec (forEach rooms
            (fun room =>
               if checkAvailable (Room.number room) ci co bookings then
                 append_option roomSelection (Room.number room)
                               (Room.number room ++ ": " ++ Room.price room)
               else ret tt)) w) =
  (listed w ++ map option_of (available_rooms ci co rooms bookings))%list.
Proof.
  revert w. induction rooms as [|r rooms IH]; intros w.
  - cbn [forEach available_rooms filter map]. now rewrite app_nil_r.
  - cbn [forEach]. rewrite exec_bind, IH.
    unfold available_rooms. cbn [filter].
    destruct (checkAvailable (Room.number r) ci co bookings).
    + rewrite listed_append_option. cbn [map]. now rewrite <- app_assoc.
    + reflexivity.
Qed.

Lemma bookingsDone_lists_available ci co rooms bookings w :
  listed (exec (bookingsDone ci co rooms bookings) w) =
  (listed w ++ map option_of (available_rooms ci co rooms bookings))%list.
Proof.
  unfold bookingsDone. rewrite exec_bind.
  rewrite <- forEach_lists_available.
  unfold listed, exec at 1, show, update. cbn [snd page].
  reflexivity.
Qed.

Lemma handle_rooms_response k data ci co w :
  nth_error (inflight w) k = Some (GetRooms ci co) ->
  exec (handle (Completes k (Some data))) w =
  exec (roomsDone ci co (parseRoomXML data)) (exec (remove_inflight k) w).
Proof. intros H. unfold handle, exec at 1. now rewrite H. Qed.

Lemma handle_bookings_response k data ci co rooms w :
  nth_error (inflight w) k = Some (GetBookings ci co rooms) ->
  exec (handle (Completes k (Some data))) w =
  exec (bookingsDone ci co rooms (parseBookingXML data))
       (exec (remove_inflight k) w).
Proof. intros H. unfold handle, exec at 1. now rewrite H. Qed.

Lemma handle_failure k r w :
  nth_error (inflight w) k = Some r ->
  exec (handle (Completes k None)) w = exec (remove_inflight k) w.
Proof. intros H. unfold handle, exec at 1. rewrite H. now destruct r. Qed.

Lemma forEach_keeps_inflight (ci co : string) (bookings : list Booking.t)
      (rooms : list Room.t) (w : world) :
  inflight (exec (forEach rooms
              (fun room =>
                 if checkAvailable (Room.number room) ci co bookings then
                   append_option roomSelection (Room.number room)
                                 (Room.number room ++ ": " ++ Room.price room)
                 else ret tt)) w) = inflight w.
Proof.
  revert w. induction rooms as [|r rooms IH]; intros w; [reflexivity|].
  cbn [forEach]. rewrite exec_bind, IH.
  now destruct (checkAvailable (Room.number r) ci co bookings).
Qed.

Lemma bookingsDone_keeps_inflight ci co rooms bookings w :
  inflight (exec (bookingsDone ci co rooms bookings) w) = inflight w.
Proof.
  unfold bookingsDone. rewrite exec_bind.
  rewrite <- (forEach_keeps_inflight ci co bookings rooms w).
  reflexivity.
Qed.

Lemma submitBookRoom_keeps_page_lists (w : world) :
  listed (exec submitBookRoom w) = listed w /\
  inflight (exec submitBookRoom w) = inflight w.
Proof.
  unfold exec. rewrite submitBookRoom_run.
  destruct (NewBooking.name (new_booking w) =? ""); split; reflexivity.
Qed.

Lemma remove_inflight_keeps (P : request -> Prop) k w :
  Forall P (inflight w) -> Forall P (inflight (exec (remove_inflight k) w)).
Proof.
  intros H. unfold remove_inflight, exec. cbn [snd inflight].
  apply Forall_app. split.
  - rewrite <- (firstn_skipn k (inflight w)) in H.
    now apply Forall_app in H.
  - rewrite <- (firstn_skipn (S k) (inflight w)) in H.
    now apply Forall_app in H.
Qed.

Lemma loaded_by_more (es more : list event) (r : request) :
  loaded_by es r -> loaded_by (es ++ more) r.
Proof.
  destruct r as [ci co|ci co rooms]; [trivial|].
  intros (k & data & Hin & Hr). exists k, data.
  split; [apply in_or_app; now left | exact Hr].
Qed.

(** Every request for the bookings is sent by the callback of a request
    for the rooms, with the rooms its response delivered. *)
Lemma handle_keeps_loaded (pre : list event) (e : event) (w : world) :
  Forall (loaded_by pre) (inflight w) ->
  Forall (loaded_by (pre ++ [e])) (inflight (exec (handle e) w)).
Proof.
  intros H0.
  assert (H : Forall (loaded_by (pre ++ [e])) (inflight w)).
  { rewrite Forall_forall in *. intros r Hr. apply loaded_by_more. now apply H0. }
  clear H0. destruct e as [| |k [data|]].
  - cbn [handle]. rewrite exec_bind.
    change (exec (ret tt) ?x) with x.
    destruct (submitFindRoom_outcome w) as (_ & _ & _ & Hfl & _).
    rewrite Hfl.
    destruct (_ && _); [|exact H].
    apply Forall_app. split; [exact H|]. now repeat constructor.
  - cbn [handle]. rewrite exec_bind.
    change (exec (ret tt) ?x) with x.
    destruct (submitBookRoom_keeps_page_lists w) as [_ Hfl]. now rewrite Hfl.
  - destruct (nth_error (inflight w) k) as [[ci co|ci co rooms]|] eqn:Hk.
    + rewrite (handle_rooms_response k data ci co w Hk).
      unfold roomsDone, ajax, exec at 1. cbn [snd inflight].
      apply Forall_app. split; [now apply remove_inflight_keeps|].
      constructor; [|constructor]. exists k, data.
      split; [apply in_or_app; right; now left | reflexivity].
    + rewrite (handle_bookings_response k data ci co rooms w Hk).
      rewrite bookingsDone_keeps_inflight. now apply remove_inflight_keeps.
    + unfold handle, exec. now rewrite Hk.
  - destruct (nth_error (inflight w) k) as [r|] eqn:Hk.
    + rewrite (handle_failure k r w Hk). now apply remove_inflight_keeps.
    + unfold handle, exec. now rewrite Hk.
Qed.

Lemma run_keeps_loaded (es pre : list event) (w : world) :
  Forall (loaded_by pre) (inflight w) ->
  Forall (loaded_by (pre ++ es)) (inflight (exec (run es) w)).
Proof.
  revert pre w. induction es as [|e es IH]; intros pre w H.
  - now rewrite app_nil_r.
  - cbn [run]. rewrite exec_bind.
    replace (pre ++ e :: es)%list with ((pre ++ [e]) ++ es)%list
      by (now rewrite <- app_assoc).
    apply IH. now apply handle_keeps_loaded.
Qed.

(** The selection changes only when a response with the bookings arrives. *)
Lemma handle_lists_on_bookings_only (e : event) (w : world) :
  listed (exec (handle e) w) <> listed w ->
  exists k ci co rooms data,
    e = Completes k (Some data) /\
    nth_error (inflight w) k = Some (GetBookings ci co rooms).
Proof.
  intros H. destruct e as [| |k [data|]].
  - exfalso. apply H. cbn [handle]. rewrite exec_bind.
    change (exec (ret tt) ?x) with x.
    now destruct (submitFindRoom_outcome w) as (_ & _ & _ & _ & _ & _ & Hl).
  - exfalso. apply H. cbn [handle]. rewrite exec_bind.
    change (exec (ret tt) ?x) with x.
    now destruct (submitBookRoom_keeps_page_lists w) as [Hl _].
  - destruct (nth_error (inflight w) k) as [[ci co|ci co rooms]|] eqn:Hk.
    + exfalso. apply H. now rewrite (handle_rooms_response k data ci co w Hk).
    + now exists k, ci, co, rooms, data.
    + exfalso. apply H. unfold handle, exec. now rewrite Hk.
  - exfalso. apply H.
    destruct (nth_error (inflight w) k) as [r|] eqn:Hk.
    + now rewrite (handle_failure k r w Hk).
    + unfold handle, exec. now rewrite Hk.
Qed.

(** ** Availability *)

Example checkAvailable_overlapping :
  checkAvailable "101" "2024-01-12" "2024-01-20"
                 [Booking.mk "101" "2024-01-10" "2024-01-15"] = false.
Proof. reflexivity. Qed.

Example checkAvailable_back_to_back :
  checkAvailable "101" "2024-01-15" "2024-01-18"
                 [Booking.mk "101" "2024-01-10" "2024-01-15"] = true.
Proof. reflexivity. Qed.

Lemma checkAvailable_true_iff (room ci co : string) (bookings : list Booking.t) :
  checkAvailable room ci co bookings = true <->
  Forall (fun b => ~ conflicts room ci co b) bookings.
Proof.
  induction bookings as [|b rest IH]; cbn [checkAvailable].
  - split; [constructor | reflexivity].
  - rewrite Forall_cons_iff, <- IH. unfold conflicts, overlaps.
    unfold JS.strict_eq.
    destruct (String.eqb_spec (Booking.number b) room) as [Hn|Hn].
    + destruct (JS.lt (Booking.checkin b) co), (JS.gt (Booking.checkout b) ci);
        cbn [andb]; split; try discriminate; try tauto;
        intros H; (split; [|exact H || apply H]); intros (_ & H1 & H2);
        discriminate.
    + tauto.
Qed.

(** C1: [checkAvailable] answers [true] exactly when no booking of the list
    is for the room and passes the half-open overlap test
    [existing.checkin < checkout] and [existing.checkout > checkin]; a
    booking that checks out on the day of the new check-in does not
    overlap, so the room is free for a stay that follows it directly. *)
Theorem checkAvailable_iff_no_conflict :
  (forall (room ci co : string) (bookings : list Booking.t),
      checkAvailable room ci co bookings = true <->
      ~ exists b, In b bookings /\ conflicts room ci co b) /\
  (forall (b : Booking.t) (ci co : string),
      Booking.checkout b = ci -> ~ overlaps b ci co) /\
  (forall room ci co x : string,
      checkAvailable room ci co [Booking.mk room x ci] = true).
Proof.
  split; [|split].
  - intros room ci co bookings.
    rewrite checkAvailable_true_iff, Forall_forall. split.
    + intros H (b & Hin & Hc). exact (H b Hin Hc).
    + intros H b Hin Hc. apply H. now exists b.
  - intros b ci co Heq [_ H]. unfold JS.gt in H. rewrite Heq in H.
    fold (JS.lt ci ci) in H. rewrite js_lt_irrefl in H. discriminate.
  - intros room ci co x. apply checkAvailable_true_iff.
    constructor; [|constructor].
    intros (_ & _ & H). cbn [Booking.checkout] in H. unfold JS.gt in H.
    fold (JS.lt ci ci) in H. rewrite js_lt_irrefl in H. discriminate.
Qed.

(** C1, at a list of two bookings: room 101 is free from 15 January, the
    day its booking ends. *)
Lemma checkAvailable_iff_no_conflict_witness :
  checkAvailable "101" "2024-01-15" "2024-01-18"
                 [Booking.mk "102" "2024-01-14" "2024-01-17";
                  Booking.mk "101" "2024-01-10" "2024-01-15"] = true.
Proof.
  destruct checkAvailable_iff_no_conflict as (H & _ & _).
  apply H. intros (b & Hin & Hroom & Hlt & Hgt).
  destruct Hin as [<-|[<-|[]]]; [discriminate Hroom | discriminate Hgt].
Defined.

(** ** The date formatter *)

(** C2, as stated, fails: the day [05] is a numeric string below 10, and
    the formatter puts a zero before it all the same; the date has three
    digits for the day and eleven characters. *)
Lemma date_padding_counterexample :
  makeDateFromXML (XML.wrap (date_element "checkin" "05" "3" "2024"))
  = "2024-03-005" /\
  ~ (forall day month year : string,
        is_numeric day = true -> is_numeric month = true ->
        is_numeric year = true ->
        JS.string_lt_10 day = true \/ JS.string_lt_10 month = true ->
        String.length
          (makeDateFromXML (XML.wrap (date_element "checkin" day month year)))
        = 10).
Proof.
  split; [reflexivity|].
  intros H.
  specialize (H "05" "3" "2024" eq_refl eq_refl eq_refl (or_introl eq_refl)).
  discriminate H.
Qed.

(** C2, amended: for a day and a month that are whole numbers from 0 to 99,
    written as plain decimal numerals in the XML or given as Numbers by the
    clock, the formatter yields two digits each, with a zero before a value
    below 10, and joins year, month and day with dashes; with a year of
    four characters the date has exactly 10 characters, and day 5, month 3,
    year 2024 give [2024-03-05]. *)
Theorem date_formatter_pads_plain_numbers :
  (forall (xmlDate : XML.query) (day month : N),
      (day < 100)%N -> (month < 100)%N ->
      XML.text (XML.find "day" xmlDate) = decimal day ->
      XML.text (XML.find "month" xmlDate) = decimal month ->
      let yyyy := XML.text (XML.find "year" xmlDate) in
      makeDateFromXML xmlDate =
      yyyy ++ "-" ++ two_digits month ++ "-" ++ two_digits day /\
      (String.length yyyy = 4 -> String.length (makeDateFromXML xmlDate) = 10)) /\
  (forall w : world,
      (0 <= getDate (now w) < 100)%Z ->
      (0 <= getMonth (now w) + 1 < 100)%Z ->
      let yyyy := JS.Number_to_string (getFullYear (now w)) in
      today w =
      yyyy ++ "-" ++ two_digits (Z.to_N (getMonth (now w) + 1)) ++ "-" ++
      two_digits (Z.to_N (getDate (now w))) /\
      (String.length yyyy = 4 -> String.length (today w) = 10)) /\
  makeDateFromXML (XML.wrap (date_element "checkin" "5" "3" "2024"))
  = "2024-03-05".
Proof.
  split; [|split].
  - intros xmlDate day month Hd Hm Hday Hmonth yyyy.
    assert (E : makeDateFromXML xmlDate =
                yyyy ++ "-" ++ two_digits month ++ "-" ++ two_digits day).
    { unfold makeDateFromXML. rewrite Hday, Hmonth.
      now rewrite !string_padded_two_digits. }
    split; [exact E|].
    intros Hy. rewrite E, length_append, Hy. reflexivity.
  - intros w Hd Hm yyyy.
    assert (E : today w =
                yyyy ++ "-" ++ two_digits (Z.to_N (getMonth (now w) + 1)) ++ "-" ++
                two_digits (Z.to_N (getDate (now w)))).
    { unfold today, result, getTodaysDate, new_Date, bind, ret. cbn [fst].
      now rewrite !Number_padded_two_digits. }
    split; [exact E|].
    intros Hy. rewrite E, length_append, Hy. reflexivity.
  - reflexivity.
Qed.

(** C2, amended, at the checkout date 7 December 2025. *)
Lemma date_formatter_pads_plain_numbers_witness :
  makeDateFromXML (XML.wrap (date_element "checkout" "7" "12" "2025"))
  = "2025-12-07" /\
  String.length
    (makeDateFromXML (XML.wrap (date_element "checkout" "7" "12" "2025"))) = 10.
Proof.
  destruct date_formatter_pads_plain_numbers as (H & _).
  destruct (H (XML.wrap (date_element "checkout" "7" "12" "2025")) 7%N 12%N
              eq_refl eq_refl eq_refl eq_refl) as [H1 H2].
  split; [exact H1 | exact (H2 eq_refl)].
Defined.

(** ** The find-room form *)

(** C3: the message for a missing check-in date is never shown.
    [getDateFromForm] joins the three values with two dashes, so its result
    is never empty and the test [!checkin] never succeeds.  On a form whose
    check-in values are empty the date is [--] and the message is the one
    for a date in the past; on a form with no check-in option selected the
    date is [null-null-null], which sorts after today's date, and there is
    no message at all. *)
Theorem submitFindRoom_missing_checkin_never_reported :
  (forall w : world,
      text (page (exec submitFindRoom w) checkinError)
      <> "You must enter a check in date.") /\
  (let w := fresh_world (filled_form "" "" "" "12" "11" "2026" "") a_clock in
   form_checkin w = "--" /\
   text (page (exec submitFindRoom w) checkinError)
   = "You can't book in the past.") /\
  (let w := fresh_world (no_checkin_selected "12" "11" "2026") a_clock in
   form_checkin w = "null-null-null" /\
   text (page (exec submitFindRoom w) checkinError) = "").
Proof.
  split; [|split].
  - intros w. destruct (submitFindRoom_outcome w) as (_ & H & _).
    rewrite H. unfold checkin_verdict, form_checkin.
    rewrite form_date_not_empty.
    destruct (JS.lt _ _); discriminate.
  - split; reflexivity.
  - split; reflexivity.
Qed.

(** C5: with the check-in and check-out dates of the form in the form
    yyyy-mm-dd and the clock in a year of four digits, [submitFindRoom]
    answers a check-in earlier than the clock's day with "You can't book in
    the past.", a check-out earlier than the check-in with "You can't check
    out before you check in.", a check-out equal to the check-in with "You
    must stay at least one night.", each without starting the search; when
    today <= check-in < check-out both messages are empty and the search
    starts. *)
Theorem submitFindRoom_date_rules :
  forall (w : world) (ci co : calendar_date),
    writable ci -> writable co -> clock_in_range (now w) ->
    form_checkin w = canonical ci ->
    form_checkout w = canonical co ->
    let w' := exec submitFindRoom w in
    let td := clock_date (now w) in
    (earlier ci td ->
     text (page w' checkinError) = "You can't book in the past." /\
     inflight w' = inflight w) /\
    (earlier co ci ->
     text (page w' checkoutError) = "You can't check out before you check in." /\
     inflight w' = inflight w) /\
    (co = ci ->
     text (page w' checkoutError) = "You must stay at least one night." /\
     inflight w' = inflight w) /\
    (~ earlier ci td -> earlier ci co ->
     text (page w' checkinError) = "" /\
     text (page w' checkoutError) = "" /\
     inflight w' = (inflight w ++ [GetRooms (canonical ci) (canonical co)])%list).
Proof.
  intros w ci co Hci Hco Hclock Hin Hout w' td.
  pose proof (clock_writable _ Hclock) as Htd. fold td in Htd.
  destruct (submitFindRoom_outcome w) as (_ & Hcin & Hcout & Hfl & _).
  fold w' in Hcin, Hcout, Hfl.
  rewrite Hin, Hout, (clock_canonical w Hclock) in *. fold td in Hcin, Hfl.
  unfold checkin_verdict, checkout_verdict in *.
  rewrite !canonical_not_empty in *.
  split; [|split; [|split]].
  - intros H. apply (lt_canonical ci td Hci Htd) in H.
    rewrite Hcin, Hfl, H. now split.
  - intros H. apply (lt_canonical co ci Hco Hci) in H.
    rewrite Hcout, Hfl, H. now rewrite andb_false_r.
  - intros ->. rewrite Hcout, Hfl, js_lt_irrefl. unfold JS.strict_eq.
    rewrite String.eqb_refl. now rewrite andb_false_r.
  - intros Hnot Hlt.
    assert (Hne : co <> ci) by (intros ->; now apply (earlier_irrefl ci)).
    rewrite Hcin, Hcout, Hfl.
    rewrite (lt_canonical_false ci td) by assumption.
    rewrite lt_canonical_false by auto using earlier_asym.
    rewrite strict_eq_canonical_false by assumption.
    now repeat split.
Qed.

(** C5, on 2 November 2026: a stay from 1 to 5 November is refused as in
    the past, and a stay from 10 to 12 November starts the search. *)
Lemma submitFindRoom_date_rules_witness :
  (let w := fresh_world (filled_form "01" "11" "2026" "05" "11" "2026" "") a_clock in
   let w' := exec submitFindRoom w in
   text (page w' checkinError) = "You can't book in the past." /\
   inflight w' = []) /\
  (let w := fresh_world (filled_form "10" "11" "2026" "12" "11" "2026" "") a_clock in
   let w' := exec submitFindRoom w in
   text (page w' checkinError) = "" /\
   text (page w' checkoutError) = "" /\
   inflight w' = [GetRooms "2026-11-10" "2026-11-12"]).
Proof.
  split.
  - intros w w'.
    destruct (submitFindRoom_date_rules w
                (mkCalendarDate 2026 11 1) (mkCalendarDate 2026 11 5))
      as (H & _).
    + unfold writable; cbn; lia.
    + unfold writable; cbn; lia.
    + unfold clock_in_range; cbn; lia.
    + reflexivity.
    + reflexivity.
    + apply H. unfold earlier; cbn; lia.
  - intros w w'.
    destruct (submitFindRoom_date_rules w
                (mkCalendarDate 2026 11 10) (mkCalendarDate 2026 11 12))
      as (_ & _ & _ & H).
    + unfold writable; cbn; lia.
    + unfold writable; cbn; lia.
    + unfold clock_in_range; cbn; lia.
    + reflexivity.
    + reflexivity.
    + apply H.
      * unfold earlier; cbn; lia.
      * unfold earlier; cbn; lia.
Defined.

(** C6: the check-out message does not depend on the clock, hence not on
    how the check-in validation ended, and the check-in message does not
    depend on the check-out fields; the search starts exactly when both
    messages are empty; and one submission can set both messages. *)
Theorem submitFindRoom_checks_independent :
  (forall w1 w2 : world,
      form_checkin w1 = form_checkin w2 ->
      form_checkout w1 = form_checkout w2 ->
      text (page (exec submitFindRoom w1) checkoutError) =
      text (page (exec submitFindRoom w2) checkoutError)) /\
  (forall w1 w2 : world,
      form_checkin w1 = form_checkin w2 ->
      today w1 = today w2 ->
      text (page (exec submitFindRoom w1) checkinError) =
      text (page (exec submitFindRoom w2) checkinError)) /\
  (forall w : world,
      let w' := exec submitFindRoom w in
      (text (page w' checkinError) = "" /\ text (page w' checkoutError) = "" ->
       inflight w' =
       (inflight w ++ [GetRooms (form_checkin w) (form_checkout w)])%list) /\
      (~ (text (page w' checkinError) = "" /\ text (page w' checkoutError) = "") ->
       inflight w' = inflight w)) /\
  (exists w : world,
      let w' := exec submitFindRoom w in
      text (page w' checkinError) = "You can't book in the past." /\
      text (page w' checkoutError) = "You can't check out before you check in.").
Proof.
  split; [|split; [|split]].
  - intros w1 w2 Hin Hout.
    destruct (submitFindRoom_outcome w1) as (_ & _ & H1 & _).
    destruct (submitFindRoom_outcome w2) as (_ & _ & H2 & _).
    rewrite H1, H2. now rewrite Hin, Hout.
  - intros w1 w2 Hin Htd.
    destruct (submitFindRoom_outcome w1) as (_ & H1 & _).
    destruct (submitFindRoom_outcome w2) as (_ & H2 & _).
    rewrite H1, H2. now rewrite Hin, Htd.
  - intros w w'.
    destruct (submitFindRoom_outcome w) as (_ & H1 & H2 & H3 & _).
    fold w' in H1, H2, H3. rewrite H3, <- H1, <- H2. split.
    + intros [E1 E2]. now rewrite E1, E2.
    + intros Hn.
      destruct (text (page w' checkinError) =? "") eqn:E1;
        destruct (text (page w' checkoutError) =? "") eqn:E2; try reflexivity.
      apply String.eqb_eq in E1, E2. exfalso. now apply Hn.
  - exists (fresh_world (filled_form "01" "11" "2026" "31" "10" "2026" "") a_clock).
    split; reflexivity.
Qed.

(** C6, on a form whose two dates pass: the search starts. *)
Lemma submitFindRoom_checks_independent_witness :
  let w := fresh_world (filled_form "10" "11" "2026" "12" "11" "2026" "") a_clock in
  inflight (exec submitFindRoom w) = [GetRooms "2026-11-10" "2026-11-12"].
Proof.
  intros w.
  destruct submitFindRoom_checks_independent as (_ & _ & H & _).
  destruct (H w) as [H1 _]. apply H1. split; reflexivity.
Defined.

(** ** The book-room form *)

(** C4, as stated, fails: with the guest name [Ann] the handler
    [submitBookRoom] returns [true], and the default submit goes on. *)
Lemma handlers_always_suppress_counterexample :
  ~ (forall w : world,
        suppresses_default (result submitFindRoom w) = true /\
        suppresses_default (result submitBookRoom w) = true).
Proof.
  intros H.
  destruct (H (fresh_world (filled_form "" "" "" "" "" "" "Ann") a_clock))
    as [_ H2].
  discriminate H2.
Qed.

(** C4, amended: [submitFindRoom] returns [false] on every input, which
    suppresses the default submit; [submitBookRoom] returns [false], and
    suppresses it, exactly when the guest name is empty after trimming, and
    returns [true] when the booking is accepted. *)
Theorem handlers_return_values :
  forall w : world,
    result submitFindRoom w = false /\
    suppresses_default (result submitFindRoom w) = true /\
    result submitBookRoom w = negb (trim (value (page w bookingName)) =? "") /\
    suppresses_default (result submitBookRoom w) =
    (trim (value (page w bookingName)) =? "").
Proof.
  intros w.
  destruct (submitFindRoom_outcome w) as (H & _).
  rewrite H. unfold result. rewrite submitBookRoom_run.
  unfold new_booking; cbn [NewBooking.name].
  destruct (trim (value (page w bookingName)) =? ""); repeat split.
Qed.

(** C7: a guest name made of white space only, such as three spaces, is
    answered with "You must enter a booking name", the handler returns
    [false] and the store keeps its list; any other name is accepted: the
    message is cleared, the handler returns [true] and the booking, with
    the trimmed name, is appended to the stored list. *)
Theorem submitBookRoom_name_rule :
  forall (w : world) (name : string),
    value (page w bookingName) = JS.Str name ->
    let w' := exec submitBookRoom w in
    (all_white_space name = true ->
     text (page w' nameError) = "You must enter a booking name" /\
     result submitBookRoom w = false /\
     localBookings w' = localBookings w) /\
    (all_white_space name = false ->
     text (page w' nameError) = "" /\
     result submitBookRoom w = true /\
     localBookings w' =
     (localBookings w ++
      [NewBooking.mk (value (page w roomSelection)) (value (page w checkinDate))
                     (value (page w checkoutDate)) (JS.trim name)])%list) /\
    all_white_space "   " = true.
Proof.
  intros w name Hname w'. subst w'. unfold exec, result.
  rewrite submitBookRoom_run. unfold new_booking. rewrite Hname.
  cbn [NewBooking.name trim].
  split; [|split; [|reflexivity]].
  - intros H. apply trim_empty_iff in H. rewrite H. cbn [String.eqb fst snd].
    rewrite text_with_text. now repeat split.
  - intros H. rewrite (trim_not_empty name H). now repeat split.
Qed.

(** C7, for the guest name [  Ann Lee ] and an empty store. *)
Lemma submitBookRoom_name_rule_witness :
  let w := fresh_world (filled_form "" "" "" "" "" "" "  Ann Lee ") a_clock in
  localBookings (exec submitBookRoom w) =
  [NewBooking.mk (JS.Str "") (JS.Str "") (JS.Str "") "Ann Lee"].
Proof.
  intros w.
  destruct (submitBookRoom_name_rule w "  Ann Lee " eq_refl) as (_ & H & _).
  destruct (H eq_refl) as (_ & _ & H'). exact H'.
Defined.

(** C10: when [submitBookRoom] rejects the submission, the guest name is
    empty after trimming, the store has been neither read nor written, and
    the list of pending bookings is the one it held. *)
Theorem submitBookRoom_rejection_leaves_store :
  forall w : world,
    result submitBookRoom w = false ->
    let w' := exec submitBookRoom w in
    trim (value (page w bookingName)) = "" /\
    storeLog w' = storeLog w /\
    localBookings w' = localBookings w.
Proof.
  intros w H w'. subst w'. unfold exec, result in *.
  rewrite submitBookRoom_run in *.
  destruct (NewBooking.name (new_booking w) =? "") eqn:E; [|discriminate].
  apply String.eqb_eq in E. repeat split. exact E.
Qed.

(** C10, for a blank name and a store that holds one booking. *)
Lemma submitBookRoom_rejection_leaves_store_witness :
  let w := mkWorld (filled_form "" "" "" "" "" "" "   ") a_clock []
             [NewBooking.mk (JS.Str "101") (JS.Str "2026-11-10")
                            (JS.Str "2026-11-12") "Ann"]
             [] in
  storeLog (exec submitBookRoom w) = [] /\
  localBookings (exec submitBookRoom w) =
  [NewBooking.mk (JS.Str "101") (JS.Str "2026-11-10") (JS.Str "2026-11-12") "Ann"].
Proof.
  intros w.
  destruct (submitBookRoom_rejection_leaves_store w eq_refl) as (_ & H1 & H2).
  split; [exact H1 | exact H2].
Defined.

(** ** The loaders and the room search *)

(** C8, as stated, fails: a booking without a check-in element is loaded
    with the check-in [-0-0], not with the empty string. *)
Lemma loaders_empty_fields_counterexample :
  ~ (forall (data : XML.node) (k : nat) (this : XML.node) (b : Booking.t),
        nth_error (XML.find "booking" (XML.wrap data)) k = Some this ->
        nth_error (parseBookingXML data) k = Some b ->
        XML.find "checkin" (XML.wrap this) = [] ->
        Booking.checkin b = "").
Proof.
  intros H.
  specialize (H undated_bookings_xml 0 undated_booking
                (Booking.mk "102" "-0-0" "-0-0") eq_refl eq_refl eq_refl).
  discriminate H.
Qed.

Lemma field_text_first (name : string) (this : XML.node) :
  XML.text (XML.first (XML.find name (XML.wrap this))) = field_text name this.
Proof.
  unfold field_text. now destruct (XML.find name (XML.wrap this)).
Qed.

Lemma date_field_first (name : string) (this : XML.node) :
  makeDateFromXML (XML.first (XML.find name (XML.wrap this))) =
  date_field name this.
Proof.
  unfold date_field. now destruct (XML.find name (XML.wrap this)).
Qed.

(** C8, amended: the loaders are total and build one record for each
    [hotelRoom] or [booking] element, in document order: the record at a
    place is built from the element at that place.  Its number, room type
    and price are the text of the first sub-element of that name, the
    empty string when it is missing.  Its dates are the texts of year,
    month and day of the first check-in or check-out sub-element joined by
    dashes, month and day with one zero before them exactly when the text
    converts to a number below 10; a missing check-in or check-out gives
    [-0-0]. *)
Theorem loaders_total_and_permissive :
  (forall data : XML.node,
      List.length (parseRoomXML data) =
      List.length (XML.find "hotelRoom" (XML.wrap data)) /\
      List.length (parseBookingXML data) =
      List.length (XML.find "booking" (XML.wrap data))) /\
  (forall (data : XML.node) (k : nat) (this : XML.node),
      nth_error (XML.find "hotelRoom" (XML.wrap data)) k = Some this ->
      nth_error (parseRoomXML data) k =
      Some (Room.mk (field_text "number" this) (field_text "roomType" this)
                    (field_text "pricePerNight" this))) /\
  (forall (data : XML.node) (k : nat) (this : XML.node),
      nth_error (XML.find "booking" (XML.wrap data)) k = Some this ->
      nth_error (parseBookingXML data) k =
      Some (Booking.mk (field_text "number" this) (date_field "checkin" this)
                       (date_field "checkout" this))) /\
  (forall (name : string) (this : XML.node),
      XML.find name (XML.wrap this) = [] ->
      field_text name this = "" /\ date_field name this = "-0-0") /\
  (forall (name : string) (this n : XML.node) (rest : XML.query),
      XML.find name (XML.wrap this) = n :: rest ->
      field_text name this = XML.textContent n /\
      date_field name this =
      XML.text (XML.find "year" (XML.wrap n)) ++ "-" ++
      zero_padded (XML.text (XML.find "month" (XML.wrap n))) ++ "-" ++
      zero_padded (XML.text (XML.find "day" (XML.wrap n)))) /\
  (forall s : string,
      (JS.string_lt_10 s = true -> zero_padded s = "0" ++ s) /\
      (JS.string_lt_10 s = false -> zero_padded s = s)).
Proof.
  split; [|split; [|split; [|split; [|split]]]].
  - intros data. rewrite parseRoomXML_map, parseBookingXML_map.
    now rewrite !length_map.
  - intros data k this Hk. rewrite parseRoomXML_map.
    rewrite (map_nth_error room_of k _ Hk). unfold room_of.
    now rewrite !field_text_first.
  - intros data k this Hk. rewrite parseBookingXML_map.
    rewrite (map_nth_error booking_of k _ Hk). unfold booking_of.
    now rewrite field_text_first, !date_field_first.
  - intros name this H. unfold field_text, date_field. now rewrite H.
  - intros name this n rest H. unfold field_text, date_field. now rewrite H.
  - intros s. unfold zero_padded. split; intros ->; reflexivity.
Qed.

(** C8, amended, at a document whose one booking has a number and no
    dates. *)
Lemma loaders_total_and_permissive_witness :
  nth_error (parseBookingXML undated_bookings_xml) 0 =
  Some (Booking.mk "102" "-0-0" "-0-0").
Proof.
  destruct loaders_total_and_permissive as (_ & _ & H & Hmissing & _).
  rewrite (H undated_bookings_xml 0 undated_booking eq_refl).
  destruct (Hmissing "checkin" undated_booking eq_refl) as [_ ->].
  destruct (Hmissing "checkout" undated_booking eq_refl) as [_ ->].
  reflexivity.
Defined.

(** C9: the callback that runs once the bookings are loaded adds to the
    room selection one option for each room that [checkAvailable] accepts
    for the range, in the order of the catalog, and no other.  From
    [setupBookRoom] on, nothing is listed when the request is sent, when
    the rooms arrive, or when the bookings fail to arrive; the rooms are
    listed when the bookings arrive after the rooms.  Whatever the events,
    the selection changes only at a response with the bookings, and every
    request for the bookings in flight carries the rooms loaded from a
    document that one of those events delivered.
    Of three rooms with room 102 booked across the range, rooms 101 and
    103 are listed. *)
Theorem room_search_lists_available_rooms :
  (forall (ci co : string) (rooms : list Room.t) (bookings : list Booking.t)
          (w : world),
      listed (exec (bookingsDone ci co rooms bookings) w) =
      (listed w ++ map option_of (available_rooms ci co rooms bookings))%list) /\
  (forall (ci co : string) (roomsXml bookingsXml : XML.node) (w : world),
      inflight w = [] ->
      let w1 := exec (setupBookRoom ci co) w in
      let w2 := exec (handle (Completes 0 (Some roomsXml))) w1 in
      let w3 := exec (handle (Completes 0 (Some bookingsXml))) w2 in
      listed w1 = listed w /\
      listed w2 = listed w /\
      listed (exec (handle (Completes 0 None)) w2) = listed w /\
      listed w3 =
      (listed w ++
       map option_of
         (available_rooms ci co (parseRoomXML roomsXml)
                          (parseBookingXML bookingsXml)))%list) /\
  (forall (e : event) (w : world),
      listed (exec (handle e) w) <> listed w ->
      exists k ci co rooms data,
        e = Completes k (Some data) /\
        nth_error (inflight w) k = Some (GetBookings ci co rooms)) /\
  (forall (es : list event) (w : world),
      inflight w = [] ->
      Forall (loaded_by es) (inflight (exec (run es) w))) /\
  (let w := fresh_world (filled_form "10" "11" "2026" "12" "11" "2026" "") a_clock in
   listed (exec (run [SubmitFindRoomForm;
                      Completes 0 (Some rooms_xml);
                      Completes 0 (Some bookings_xml)]) w) =
   [mkOption "101" "101: 100.00"; mkOption "103" "103: 250.00"]).
Proof.
  split; [|split; [|split; [|split]]];
    [| |exact handle_lists_on_bookings_only
     |intros es w Hw; apply (run_keeps_loaded es [] w); rewrite Hw; constructor|].
  - intros. apply bookingsDone_lists_available.
  - intros ci co roomsXml bookingsXml w Hw w1 w2 w3.
    assert (H1 : inflight w1 = [GetRooms ci co])
      by (unfold w1, setupBookRoom, ajax, exec; cbn [snd inflight]; now rewrite Hw).
    assert (H2 : w2 = exec (roomsDone ci co (parseRoomXML roomsXml))
                        (exec (remove_inflight 0) w1))
      by (apply handle_rooms_response; now rewrite H1).
    assert (H3 : inflight w2 = [GetBookings ci co (parseRoomXML roomsXml)]).
    { rewrite H2. unfold roomsDone, ajax, remove_inflight, exec.
      cbn [snd inflight]. now rewrite H1. }
    assert (H4 : listed w2 = listed w) by (now rewrite H2).
    split; [reflexivity|]. split; [exact H4|]. split.
    + rewrite (handle_failure 0 (GetBookings ci co (parseRoomXML roomsXml)))
        by now rewrite H3.
      exact H4.
    + unfold w3.
      rewrite (handle_bookings_response 0 bookingsXml ci co (parseRoomXML roomsXml))
        by now rewrite H3.
      rewrite bookingsDone_lists_available. f_equal. exact H4.
  - vm_compute. reflexivity.
Qed.

(** C9, for the sample catalog and a stay from 10 to 12 November 2026. *)
Lemma room_search_lists_available_rooms_witness :
  let w := fresh_world (filled_form "" "" "" "" "" "" "") a_clock in
  listed (exec (handle (Completes 0 (Some bookings_xml)))
            (exec (handle (Completes 0 (Some rooms_xml)))
               (exec (setupBookRoom "2026-11-10" "2026-11-12") w))) =
  [mkOption "101" "101: 100.00"; mkOption "103" "103: 250.00"].
Proof.
  intros w.
  destruct room_search_lists_available_rooms as (_ & H & _).
  destruct (H "2026-11-10" "2026-11-12" rooms_xml bookings_xml w eq_refl)
    as (_ & _ & _ & H').
  exact H'.
Defined.

(** ** More on the order of strings *)

Lemma ascii_compare_N (a b : ascii) :
  Ascii.compare a b = (N_of_ascii a ?= N_of_ascii b)%N.
Proof. reflexivity. Qed.

(** [a < b] and [b <= c] give [a < c]. *)
Lemma string_compare_lt_le (a b c : string) :
  String.compare a b = Lt -> String.compare b c <> Gt ->
  String.compare a c = Lt.
Proof.
  revert b c. induction a as [|x a IH]; intros [|y b] [|z c]; simpl;
    try congruence.
  rewrite !ascii_compare_N.
  destruct (N.compare_spec (N_of_ascii x) (N_of_ascii y)) as [Hxy|Hxy|Hxy];
    destruct (N.compare_spec (N_of_ascii y) (N_of_ascii z)) as [Hyz|Hyz|Hyz];
    try congruence; intros H1 H2.
  - rewrite Hxy, Hyz, N.compare_refl. now apply (IH b c).
  - replace (N_of_ascii x ?= N_of_ascii z)%N with Lt; [reflexivity|].
    symmetry. apply N.compare_lt_iff. lia.
  - replace (N_of_ascii x ?= N_of_ascii z)%N with Lt; [reflexivity|].
    symmetry. apply N.compare_lt_iff. lia.
  - replace (N_of_ascii x ?= N_of_ascii z)%N with Lt; [reflexivity|].
    symmetry. apply N.compare_lt_iff. lia.
Qed.

Lemma js_lt_le_trans (a b c : string) :
  JS.lt a b = true -> js_le b c -> JS.lt a c = true.
Proof.
  unfold js_le, JS.lt, String.ltb. intros H1 H2.
  rewrite (string_compare_lt_le a b c); [reflexivity| |].
  - now destruct (String.compare a b).
  - rewrite String.compare_antisym. now destruct (String.compare c b).
Qed.

Lemma js_le_lt_trans (a b c : string) :
  js_le a b -> JS.lt b c = true -> JS.lt a c = true.
Proof.
  unfold js_le, JS.lt, String.ltb. intros H1 H2.
  destruct (String.compare a c) eqn:Hac; [exfalso|reflexivity|exfalso].
  - apply String.compare_eq_iff in Hac. subst c.
    destruct (String.compare b a); discriminate.
  - assert (Hba : String.compare b a = Lt).
    { apply (string_compare_lt_le b c a).
      - now destruct (String.compare b c).
      - rewrite String.compare_antisym, Hac. discriminate. }
    rewrite Hba in H1. discriminate.
Qed.

(** ** More on availability *)

Lemma checkAvailable_app (room ci co : string) (l1 l2 : list Booking.t) :
  checkAvailable room ci co (l1 ++ l2) =
  checkAvailable room ci co l1 && checkAvailable room ci co l2.
Proof.
  induction l1 as [|b l1 IH]; cbn [checkAvailable app]; [reflexivity|].
  destruct (JS.strict_eq (Booking.number b) room); [|exact IH].
  destruct (JS.lt (Booking.checkin b) co && JS.gt (Booking.checkout b) ci);
    [reflexivity | exact IH].
Qed.

(** X1: the answer of [checkAvailable] on two lists put together is the
    conjunction of its answers on each, so it does not depend on the order
    of the bookings, and more bookings never make a room available. *)
Theorem checkAvailable_composes :
  (forall (room ci co : string) (l1 l2 : list Booking.t),
      checkAvailable room ci co (l1 ++ l2) =
      checkAvailable room ci co l1 && checkAvailable room ci co l2) /\
  (forall (room ci co : string) (l1 l2 : list Booking.t),
      Permutation l1 l2 ->
      checkAvailable room ci co l1 = checkAvailable room ci co l2) /\
  (forall (room ci co : string) (l1 l2 : list Booking.t),
      incl l1 l2 ->
      checkAvailable room ci co l2 = true ->
      checkAvailable room ci co l1 = true).
Proof.
  split; [exact checkAvailable_app|split].
  - intros room ci co l1 l2 Hp.
    destruct (checkAvailable room ci co l1) eqn:E1;
      destruct (checkAvailable room ci co l2) eqn:E2; try reflexivity; exfalso.
    + apply checkAvailable_true_iff in E1.
      assert (checkAvailable room ci co l2 = true); [|congruence].
      apply checkAvailable_true_iff. rewrite Forall_forall in *.
      intros b Hb. apply E1. now apply (Permutation_in b (Permutation_sym Hp)).
    + apply checkAvailable_true_iff in E2.
      assert (checkAvailable room ci co l1 = true); [|congruence].
      apply checkAvailable_true_iff. rewrite Forall_forall in *.
      intros b Hb. apply E2. now apply (Permutation_in b Hp).
  - intros room ci co l1 l2 Hincl H.
    apply checkAvailable_true_iff in H. apply checkAvailable_true_iff.
    rewrite Forall_forall in *. intros b Hb. apply H. now apply Hincl.
Qed.

(** X1, for two bookings in either order. *)
Lemma checkAvailable_composes_witness :
  checkAvailable "101" "2024-01-15" "2024-01-18"
    [Booking.mk "101" "2024-01-10" "2024-01-15";
     Booking.mk "101" "2024-01-17" "2024-01-19"] =
  checkAvailable "101" "2024-01-15" "2024-01-18"
    [Booking.mk "101" "2024-01-17" "2024-01-19";
     Booking.mk "101" "2024-01-10" "2024-01-15"].
Proof.
  destruct checkAvailable_composes as (_ & H & _).
  apply H. apply perm_swap.
Defined.

(** X2: only the bookings of the room count: [checkAvailable] answers on
    the whole list as on the bookings of that room alone, and a room
    without a booking is available for every range. *)
Theorem checkAvailable_own_bookings_only :
  (forall (room ci co : string) (bookings : list Booking.t),
      checkAvailable room ci co bookings =
      checkAvailable room ci co
        (filter (fun b => JS.strict_eq (Booking.number b) room) bookings)) /\
  (forall (room ci co : string) (bookings : list Booking.t),
      (forall b, In b bookings -> Booking.number b <> room) ->
      checkAvailable room ci co bookings = true).
Proof.
  split.
  - intros room ci co bookings.
    induction bookings as [|b rest IH]; cbn [checkAvailable filter]; [reflexivity|].
    destruct (JS.strict_eq (Booking.number b) room) eqn:E; [|exact IH].
    cbn [checkAvailable]. rewrite E.
    destruct (JS.lt (Booking.checkin b) co && JS.gt (Booking.checkout b) ci);
      [reflexivity | exact IH].
  - intros room ci co bookings H. apply checkAvailable_true_iff.
    rewrite Forall_forall. intros b Hb [Hn _]. exact (H b Hb Hn).
Qed.

(** X2, for room 103 and bookings of two other rooms. *)
Lemma checkAvailable_own_bookings_only_witness :
  checkAvailable "103" "2024-01-01" "2024-12-31"
    [Booking.mk "101" "2024-01-10" "2024-01-15";
     Booking.mk "102" "2024-03-01" "2024-03-02"] = true.
Proof.
  destruct checkAvailable_own_bookings_only as (_ & H).
  apply H. intros b [<-|[<-|[]]]; discriminate.
Defined.

(** X3: a room available for a range is available for every range inside
    it, in the order of the strings the script compares. *)
Theorem checkAvailable_narrower_range :
  forall (room ci co ci' co' : string) (bookings : list Booking.t),
    js_le ci ci' -> js_le co' co ->
    checkAvailable room ci co bookings = true ->
    checkAvailable room ci' co' bookings = true.
Proof.
  intros room ci co ci' co' bookings Hci Hco H.
  apply checkAvailable_true_iff in H. apply checkAvailable_true_iff.
  rewrite Forall_forall in *. intros b Hb (Hn & H1 & H2).
  apply (H b Hb). split; [exact Hn|]. split.
  - now apply (js_lt_le_trans _ co').
  - unfold JS.gt in *. now apply (js_le_lt_trans _ ci').
Qed.

(** X3, from the stay 10 to 20 January down to 12 to 15 January. *)
Lemma checkAvailable_narrower_range_witness :
  checkAvailable "101" "2024-01-12" "2024-01-15"
    [Booking.mk "101" "2024-01-05" "2024-01-10";
     Booking.mk "101" "2024-01-20" "2024-01-25"] = true.
Proof.
  apply (checkAvailable_narrower_range "101" "2024-01-10" "2024-01-20");
    reflexivity.
Defined.

Lemma earlier_trans_le (a b c : calendar_date) :
  ~ earlier b a -> earlier b c -> earlier a c.
Proof. unfold earlier. lia. Qed.

Lemma earlier_le_trans (a b c : calendar_date) :
  earlier a b -> ~ earlier c b -> earlier a c.
Proof. unfold earlier. lia. Qed.

(** On dated bookings the overlap test says that a night is shared. *)
Lemma overlaps_iff_shared_night (b : Booking.t) (from to ci co : calendar_date) :
  dated b from to -> writable ci -> writable co -> earlier ci co ->
  overlaps b (canonical ci) (canonical co) <->
  exists d, night_of d from to /\ night_of d ci co.
Proof.
  intros (Hf & Ht & Hft & Hin & Hout) Hci Hco Hcico.
  unfold overlaps, JS.gt. rewrite Hin, Hout.
  rewrite (lt_canonical from co Hf Hco), (lt_canonical ci to Hci Ht).
  unfold night_of. split.
  - intros [H1 H2].
    destruct (JS.lt (canonical from) (canonical ci)) eqn:E.
    + apply (lt_canonical from ci Hf Hci) in E. exists ci.
      repeat split; auto using earlier_asym, earlier_irrefl.
    + assert (Hn : ~ earlier from ci).
      { intros H. apply (lt_canonical from ci Hf Hci) in H. congruence. }
      exists from. repeat split; auto using earlier_irrefl.
  - intros (d & [H1 H2] & [H3 H4]). split.
    + now apply (earlier_trans_le from d co).
    + now apply (earlier_trans_le ci d to).
Qed.

(** X4: with the bookings and the request in the form yyyy-mm-dd, each of
    at least one night, [checkAvailable] answers [true] exactly when no
    booking of the room shares a night with the requested stay. *)
Theorem checkAvailable_no_shared_night :
  forall (room : string) (ci co : calendar_date) (bookings : list Booking.t),
    writable ci -> writable co -> earlier ci co ->
    (forall b, In b bookings -> exists from to, dated b from to) ->
    checkAvailable room (canonical ci) (canonical co) bookings = true <->
    (forall b from to d,
        In b bookings -> Booking.number b = room -> dated b from to ->
        ~ (night_of d from to /\ night_of d ci co)).
Proof.
  intros room ci co bookings Hci Hco Hcico Hdated.
  rewrite checkAvailable_true_iff, Forall_forall. split.
  - intros H b from to d Hb Hn Hd Hshared. apply (H b Hb). split; [exact Hn|].
    apply (overlaps_iff_shared_night b from to ci co Hd Hci Hco Hcico).
    now exists d.
  - intros H b Hb [Hn Hov].
    destruct (Hdated b Hb) as (from & to & Hd).
    apply (overlaps_iff_shared_night b from to ci co Hd Hci Hco Hcico) in Hov.
    destruct Hov as (d & Hshared). exact (H b from to d Hb Hn Hd Hshared).
Qed.

(** X4, for a stay that begins on the day the booking ends. *)
Lemma checkAvailable_no_shared_night_witness :
  checkAvailable "101" "2024-01-15" "2024-01-18"
                 [Booking.mk "101" "2024-01-10" "2024-01-15"] = true.
Proof.
  apply (checkAvailable_no_shared_night "101"
           (mkCalendarDate 2024 1 15) (mkCalendarDate 2024 1 18)).
  - unfold writable; cbn; lia.
  - unfold writable; cbn; lia.
  - unfold earlier; cbn; lia.
  - intros b [<-|[]].
    exists (mkCalendarDate 2024 1 10), (mkCalendarDate 2024 1 15).
    unfold dated, writable, earlier; cbn. repeat split; lia.
  - intros b from to d [<-|[]] _ (Hf & Ht & _ & Hin & Hout) [[_ H1] [H2 _]].
    cbn [Booking.checkin Booking.checkout] in Hin, Hout.
    assert (to = mkCalendarDate 2024 1 15).
    { symmetry. apply eq_canonical; [unfold writable; cbn; lia | exact Ht | exact Hout]. }
    subst to. contradiction.
Defined.

(** ** Dates read from XML *)

Lemma decimal_four_digits (n : N) :
  (1000 <= n < 10000)%N -> decimal n = four_digits n.
Proof.
  intros Hn.
  assert (H : forallb (fun n => (n <? 1000)%N || (decimal n =? four_digits n))
                (map N.of_nat (seq 0 (100 * 100))) = true)
    by (vm_compute; reflexivity).
  pose proof (below_all _ _ H n) as Hb. cbv beta in Hb.
  destruct (n <? 1000)%N eqn:Hlt.
  - apply N.ltb_lt in Hlt. lia.
  - apply String.eqb_eq. apply Hb. lia.
Qed.

Lemma plain_date_writable (d : calendar_date) : plain_date d -> writable d.
Proof. unfold plain_date, writable. lia. Qed.

Lemma makeDateFromXML_canonical (xmlDate : XML.query) (d : calendar_date) :
  plain_date d -> reads_date xmlDate d -> makeDateFromXML xmlDate = canonical d.
Proof.
  intros (Hy & Hm & Hd) (Hday & Hmonth & Hyear).
  unfold makeDateFromXML, canonical. rewrite Hday, Hmonth, Hyear.
  rewrite !string_padded_two_digits by assumption.
  now rewrite decimal_four_digits.
Qed.

(** X5: dates whose day, month and four-digit year stand in the XML as
    plain decimal numerals are formatted as yyyy-mm-dd, so that the order
    of the strings is the order of the days and equal strings are equal
    days: the comparison the formatter is written for. *)
Theorem makeDateFromXML_sorts_chronologically :
  forall (q1 q2 : XML.query) (d1 d2 : calendar_date),
    plain_date d1 -> plain_date d2 ->
    reads_date q1 d1 -> reads_date q2 d2 ->
    makeDateFromXML q1 = canonical d1 /\
    (JS.lt (makeDateFromXML q1) (makeDateFromXML q2) = true <-> earlier d1 d2) /\
    (makeDateFromXML q1 = makeDateFromXML q2 <-> d1 = d2).
Proof.
  intros q1 q2 d1 d2 H1 H2 R1 R2.
  rewrite (makeDateFromXML_canonical q1 d1 H1 R1).
  rewrite (makeDateFromXML_canonical q2 d2 H2 R2).
  pose proof (plain_date_writable d1 H1) as W1.
  pose proof (plain_date_writable d2 H2) as W2.
  split; [reflexivity|]. split.
  - now apply lt_canonical.
  - split; [now apply eq_canonical | now intros ->].
Qed.

(** X5, for 9 February 2024 and 10 February 2024. *)
Lemma makeDateFromXML_sorts_chronologically_witness :
  JS.lt (makeDateFromXML (XML.wrap (date_element "checkin" "9" "2" "2024")))
        (makeDateFromXML (XML.wrap (date_element "checkout" "10" "2" "2024")))
  = true.
Proof.
  destruct (makeDateFromXML_sorts_chronologically
              (XML.wrap (date_element "checkin" "9" "2" "2024"))
              (XML.wrap (date_element "checkout" "10" "2" "2024"))
              (mkCalendarDate 2024 2 9) (mkCalendarDate 2024 2 10))
    as (_ & H & _).
  - unfold plain_date; cbn; lia.
  - unfold plain_date; cbn; lia.
  - repeat split.
  - repeat split.
  - apply H. unfold earlier; cbn; lia.
Defined.

(** ** The loaders on documents of the expected shape *)

Lemma find_in_document (name root_tag : string) (children : list XML.node) :
  (root_tag =? name) = false ->
  XML.find name (XML.wrap (XML.document (XML.Element root_tag children))) =
  filter (XML.has_tag name) (flat_map XML.subtree children).
Proof.
  intros H. unfold XML.find, XML.wrap, XML.document.
  cbn [flat_map XML.descendants XML.subtree filter XML.has_tag app].
  rewrite H. now rewrite !app_nil_r.
Qed.

Lemma find_hotelRoom_elements (rooms : list Room.t) :
  filter (XML.has_tag "hotelRoom")
    (flat_map XML.subtree
       (map (fun r => room_element (Room.number r) (Room.type r) (Room.price r))
            rooms)) =
  map (fun r => room_element (Room.number r) (Room.type r) (Room.price r)) rooms.
Proof.
  induction rooms as [|r rooms IH]; [reflexivity|].
  cbn [map flat_map]. rewrite filter_app, IH. reflexivity.
Qed.

Lemma find_booking_elements (stays : list stay) :
  filter (XML.has_tag "booking")
    (flat_map XML.subtree (map booking_element stays)) =
  map booking_element stays.
Proof.
  induction stays as [|s stays IH]; [reflexivity|].
  cbn [map flat_map]. rewrite filter_app, IH. reflexivity.
Qed.

Lemma room_of_room_element (r : Room.t) :
  room_of (room_element (Room.number r) (Room.type r) (Room.price r)) = r.
Proof. now destruct r. Qed.

Lemma booking_of_booking_element (s : stay) :
  plain_date (stay_from s) -> plain_date (stay_to s) ->
  booking_of (booking_element s) = booking_of_stay s.
Proof.
  intros Hf Ht. unfold booking_of, booking_of_stay. f_equal.
  - apply makeDateFromXML_canonical; [exact Hf | repeat split].
  - apply makeDateFromXML_canonical; [exact Ht | repeat split].
Qed.

Lemma parseRoomXML_rooms_document (rooms : list Room.t) :
  parseRoomXML (rooms_document rooms) = rooms.
Proof.
  rewrite parseRoomXML_map. unfold rooms_document.
  rewrite find_in_document by reflexivity.
  rewrite find_hotelRoom_elements, map_map.
  rewrite <- (map_id rooms) at 2. apply map_ext. exact room_of_room_element.
Qed.

Lemma parseBookingXML_bookings_document (stays : list stay) :
  (forall s, In s stays -> plain_date (stay_from s) /\ plain_date (stay_to s)) ->
  parseBookingXML (bookings_document stays) = map booking_of_stay stays.
Proof.
  intros H. rewrite parseBookingXML_map. unfold bookings_document.
  rewrite find_in_document by reflexivity.
  rewrite find_booking_elements, map_map.
  apply map_ext_in. intros s Hs. destruct (H s Hs).
  now apply booking_of_booking_element.
Qed.

(** X6: a catalog written with one [hotelRoom] element for each room, its
    number, type and price as the text of three child elements, is loaded
    by [parseRoomXML] as exactly those rooms, in their order, whatever the
    texts. *)
Theorem parseRoomXML_round_trip :
  forall rooms : list Room.t, parseRoomXML (rooms_document rooms) = rooms.
Proof. exact parseRoomXML_rooms_document. Qed.

(** X7: a bookings file written with one [booking] element for each stay,
    its dates as day, month and four-digit year in plain decimal numerals,
    is loaded by [parseBookingXML] as those stays in their order, each with
    its room number and its two dates in the form yyyy-mm-dd. *)
Theorem parseBookingXML_round_trip :
  forall stays : list stay,
    (forall s, In s stays -> plain_date (stay_from s) /\ plain_date (stay_to s)) ->
    parseBookingXML (bookings_document stays) = map booking_of_stay stays.
Proof. exact parseBookingXML_bookings_document. Qed.

(** X7, for one stay in room 102 from 9 to 20 November 2026. *)
Lemma parseBookingXML_round_trip_witness :
  parseBookingXML
    (bookings_document
       [mkStay "102" (mkCalendarDate 2026 11 9) (mkCalendarDate 2026 11 20)]) =
  [Booking.mk "102" "2026-11-09" "2026-11-20"].
Proof.
  apply (parseBookingXML_round_trip
           [mkStay "102" (mkCalendarDate 2026 11 9) (mkCalendarDate 2026 11 20)]).
  intros s [<-|[]]. unfold plain_date; cbn. lia.
Defined.

(** ** More on the find-room form *)

Lemma handle_submitFindRoom (w : world) :
  exec (handle SubmitFindRoomForm) w = exec submitFindRoom w.
Proof. cbn [handle]. now rewrite exec_bind. Qed.

Lemma handle_submitBookRoom (w : world) :
  exec (handle SubmitBookRoomForm) w = exec submitBookRoom w.
Proof. cbn [handle]. now rewrite exec_bind. Qed.

Lemma exec_submitFindRoom (w : world) :
  exec submitFindRoom w =
  let ci := form_checkin w in
  let co := form_checkout w in
  let w2 := with_text checkoutError (checkout_verdict co ci)
              (with_text checkinError (checkin_verdict ci (today w)) w) in
  if (checkin_verdict ci (today w) =? "") && (checkout_verdict co ci =? "")
  then search_started ci co w2 else w2.
Proof. unfold exec. now rewrite submitFindRoom_run. Qed.

(** The two messages are empty exactly when the guard [isValid] holds. *)
Lemma messages_empty_iff_valid (w : world) :
  let w' := exec submitFindRoom w in
  (text (page w' checkinError) = "" /\ text (page w' checkoutError) = "") <->
  (checkin_verdict (form_checkin w) (today w) =? "") &&
  (checkout_verdict (form_checkout w) (form_checkin w) =? "") = true.
Proof.
  intros w'. destruct (submitFindRoom_outcome w) as (_ & H1 & H2 & _).
  fold w' in H1, H2. rewrite H1, H2, andb_true_iff, !String.eqb_eq. tauto.
Qed.

Lemma with_text_frame i s w j :
  value (page (with_text i s w) j) = value (page w j) /\
  visible (page (with_text i s w) j) = visible (page w j) /\
  disabled (page (with_text i s w) j) = disabled (page w j).
Proof.
  unfold with_text, exec, set_text, update. cbn [snd page].
  destruct (id_eq_dec i j); repeat split.
Qed.

Lemma with_text_other i s w j :
  i <> j -> text (page (with_text i s w) j) = text (page w j).
Proof.
  intros H. rewrite text_with_text. now destruct (id_eq_dec i j).
Qed.

Lemma search_started_values ci co w :
  value (page (search_started ci co w) checkinDate) = JS.Str ci /\
  value (page (search_started ci co w) checkoutDate) = JS.Str co /\
  disabled (page (search_started ci co w) findRoomForm_inputs) = true /\
  visible (page (search_started ci co w) searchingForRooms) = true.
Proof. repeat split. Qed.

Lemma search_started_other_values ci co w j :
  j <> checkinDate -> j <> checkoutDate ->
  value (page (search_started ci co w) j) = value (page w j).
Proof.
  intros H1 H2.
  unfold search_started, exec, bind, set_val, prop_disabled, show,
    setupBookRoom, ajax, update.
  cbn [snd page].
  repeat match goal with
         | |- context [id_eq_dec ?i ?j] => destruct (id_eq_dec i j)
         end; subst; try reflexivity; congruence.
Qed.

Lemma search_started_visible ci co w j :
  j <> searchingForRooms ->
  visible (page (search_started ci co w) j) = visible (page w j).
Proof.
  intros H1.
  unfold search_started, exec, bind, set_val, prop_disabled, show,
    setupBookRoom, ajax, update.
  cbn [snd page].
  repeat match goal with
         | |- context [id_eq_dec ?i ?j] => destruct (id_eq_dec i j)
         end; subst; try reflexivity; congruence.
Qed.

Lemma search_started_store ci co w :
  localBookings (search_started ci co w) = localBookings w /\
  storeLog (search_started ci co w) = storeLog w.
Proof. split; reflexivity. Qed.

(** X10: when both checks pass, [submitFindRoom] writes the two dates into
    the hidden fields of the booking form, disables the inputs of the find
    form and shows the searching notice, and changes no other value; when
    a check fails it changes nothing on the page but the two messages. *)
Theorem submitFindRoom_page_effects :
  forall w : world,
    let w' := exec submitFindRoom w in
    (forall i, i <> checkinError -> i <> checkoutError ->
               text (page w' i) = text (page w i)) /\
    (text (page w' checkinError) = "" /\ text (page w' checkoutError) = "" ->
     value (page w' checkinDate) = JS.Str (form_checkin w) /\
     value (page w' checkoutDate) = JS.Str (form_checkout w) /\
     disabled (page w' findRoomForm_inputs) = true /\
     visible (page w' searchingForRooms) = true /\
     (forall i, i <> checkinDate -> i <> checkoutDate ->
                value (page w' i) = value (page w i))) /\
    (~ (text (page w' checkinError) = "" /\ text (page w' checkoutError) = "") ->
     forall i, value (page w' i) = value (page w i) /\
               visible (page w' i) = visible (page w i) /\
               disabled (page w' i) = disabled (page w i) /\
               options (page w' i) = options (page w i)).
Proof.
  intros w w'. pose proof (messages_empty_iff_valid w) as Hv. fold w' in Hv.
  unfold w' in *. clear w'. rewrite exec_submitFindRoom in *. cbv zeta in *.
  set (ci := form_checkin w) in *. set (co := form_checkout w) in *.
  set (m1 := checkin_verdict ci (today w)) in *.
  set (m2 := checkout_verdict co ci) in *.
  destruct ((m1 =? "") && (m2 =? "")) eqn:E.
  - split; [|split].
    + intros i H1 H2. rewrite search_started_text.
      rewrite with_text_other by congruence. now rewrite with_text_other by congruence.
    + intros _. destruct (search_started_values ci co
                            (with_text checkoutError m2 (with_text checkinError m1 w)))
        as (V1 & V2 & V3 & V4).
      repeat split; try assumption.
      intros i H1 H2. rewrite search_started_other_values by assumption.
      destruct (with_text_frame checkoutError m2 (with_text checkinError m1 w) i)
        as (-> & _).
      now destruct (with_text_frame checkinError m1 w i) as (-> & _).
    + intros Hn. exfalso. apply Hn. now apply Hv.
  - split; [|split].
    + intros i H1 H2.
      rewrite with_text_other by congruence. now rewrite with_text_other by congruence.
    + intros Hm. apply Hv in Hm. discriminate.
    + intros _ i.
      destruct (with_text_frame checkoutError m2 (with_text checkinError m1 w) i)
        as (-> & -> & ->).
      destruct (with_text_frame checkinError m1 w i) as (-> & -> & ->).
      now rewrite !options_with_text.
Qed.

(** X10, for a stay from 10 to 12 November 2026 asked on 2 November. *)
Lemma submitFindRoom_page_effects_witness :
  let w := fresh_world (filled_form "10" "11" "2026" "12" "11" "2026" "") a_clock in
  value (page (exec submitFindRoom w) checkinDate) = JS.Str "2026-11-10" /\
  value (page (exec submitFindRoom w) checkoutDate) = JS.Str "2026-11-12".
Proof.
  intros w.
  destruct (submitFindRoom_page_effects w) as (_ & H & _).
  destruct H as (H1 & H2 & _); [split; reflexivity|].
  split; [exact H1 | exact H2].
Defined.

Lemma dashes_before_canonical (d : calendar_date) :
  writable d -> JS.lt "--" (canonical d) = true.
Proof.
  intros (Hy & _). unfold JS.lt, String.ltb, canonical, four_digits, two_digits.
  cbn [String.append String.compare]. rewrite ascii_compare_N.
  unfold digit. rewrite N_ascii_embedding.
  - replace (N_of_ascii "-" ?= 48 + year d / 100 / 10)%N with Lt; [reflexivity|].
    symmetry. apply N.compare_lt_iff. change (N_of_ascii "-") with 45%N.
    generalize (year d / 100 / 10)%N. intros k. lia.
  - assert (year d / 100 / 10 < 10)%N; [|lia].
    apply N.Div0.div_lt_upper_bound. apply N.Div0.div_lt_upper_bound. lia.
Qed.

(** X8: the message for a missing check-out date is never shown, because
    the date read from the form is never empty; with the three check-out
    values empty the date is [--], which sorts before every date written
    yyyy-mm-dd, and the message is the one for a check-out before the
    check-in. *)
Theorem submitFindRoom_missing_checkout_never_reported :
  (forall w : world,
      text (page (exec submitFindRoom w) checkoutError)
      <> "You must enter a check out date.") /\
  (forall (w : world) (ci : calendar_date),
      writable ci -> form_checkin w = canonical ci -> form_checkout w = "--" ->
      text (page (exec submitFindRoom w) checkoutError)
      = "You can't check out before you check in.").
Proof.
  split.
  - intros w. destruct (submitFindRoom_outcome w) as (_ & _ & H & _).
    rewrite H. unfold checkout_verdict, form_checkout.
    rewrite form_date_not_empty.
    destruct (JS.lt _ _); [discriminate|].
    destruct (JS.strict_eq _ _); discriminate.
  - intros w ci Hci Hin Hout.
    destruct (submitFindRoom_outcome w) as (_ & _ & H & _).
    rewrite H, Hin, Hout. unfold checkout_verdict.
    now rewrite dashes_before_canonical.
Qed.

(** X8, for a form with the check-in 10 November 2026 and no check-out. *)
Lemma submitFindRoom_missing_checkout_never_reported_witness :
  let w := fresh_world (filled_form "10" "11" "2026" "" "" "" "") a_clock in
  text (page (exec submitFindRoom w) checkoutError)
  = "You can't check out before you check in.".
Proof.
  intros w.
  destruct submitFindRoom_missing_checkout_never_reported as (_ & H).
  apply (H w (mkCalendarDate 2026 11 10)); [unfold writable; cbn; lia | | ];
    reflexivity.
Defined.

Lemma compare_common_prefix (p s t : string) :
  String.compare (p ++ s) (p ++ t) = String.compare s t.
Proof.
  rewrite compare_append by reflexivity. now rewrite string_compare_refl.
Qed.

Lemma decimal_one_digit_after_two (d1 d2 : N) :
  (1 <= d1 <= 9)%N -> (10 <= d2 <= 99)%N -> (d2 / 10 < d1)%N ->
  String.compare (decimal d2) (decimal d1) = Lt.
Proof.
  intros H1 H2 H3.
  assert (H : forallb (fun a => forallb (fun b =>
               negb ((1 <=? a) && (a <=? 9) && (10 <=? b) && (b / 10 <? a))%N ||
               match String.compare (decimal b) (decimal a) with
               | Lt => true
               | _ => false
               end) (map N.of_nat (seq 0 100))) (map N.of_nat (seq 0 10)) = true)
    by (vm_compute; reflexivity).
  pose proof (below_all _ _ H d1) as Ha. cbv beta in Ha.
  specialize (Ha ltac:(lia)).
  pose proof (below_all _ _ Ha d2) as Hb. cbv beta in Hb.
  specialize (Hb ltac:(lia)).
  replace ((1 <=? d1) && (d1 <=? 9) && (10 <=? d2) && (d2 / 10 <? d1))%N
    with true in Hb.
  - cbn [negb orb] in Hb. now destruct (String.compare (decimal d2) (decimal d1)).
  - symmetry. rewrite !andb_true_iff, !N.leb_le, N.ltb_lt. lia.
Qed.

(** X9: [getDateFromForm] joins the values of the selects as they are,
    without padding.  With values written without a leading zero, a
    check-in on a day of one digit and a check-out later in the same
    month, on a day of two digits whose first digit is the smaller one, is
    answered with "You can't check out before you check in.". *)
Theorem submitFindRoom_unpadded_days_misordered :
  forall (w : world) (yyyy mm : string) (d1 d2 : N),
    value (page w checkinyear) = JS.Str yyyy ->
    value (page w checkinmonth) = JS.Str mm ->
    value (page w checkinday) = JS.Str (decimal d1) ->
    value (page w checkoutyear) = JS.Str yyyy ->
    value (page w checkoutmonth) = JS.Str mm ->
    value (page w checkoutday) = JS.Str (decimal d2) ->
    (1 <= d1 <= 9)%N -> (10 <= d2 <= 99)%N -> (d2 / 10 < d1)%N ->
    form_checkin w = yyyy ++ "-" ++ mm ++ "-" ++ decimal d1 /\
    form_checkout w = yyyy ++ "-" ++ mm ++ "-" ++ decimal d2 /\
    text (page (exec submitFindRoom w) checkoutError)
    = "You can't check out before you check in.".
Proof.
  intros w yyyy mm d1 d2 V1 V2 V3 V4 V5 V6 H1 H2 H3.
  assert (Hin : form_checkin w = yyyy ++ "-" ++ mm ++ "-" ++ decimal d1).
  { unfold form_checkin, result, getDateFromForm, val, bind, ret. cbn [fst].
    now rewrite V1, V2, V3. }
  assert (Hout : form_checkout w = yyyy ++ "-" ++ mm ++ "-" ++ decimal d2).
  { unfold form_checkout, result, getDateFromForm, val, bind, ret. cbn [fst].
    now rewrite V4, V5, V6. }
  split; [exact Hin|]. split; [exact Hout|].
  destruct (submitFindRoom_outcome w) as (_ & _ & H & _).
  rewrite H. unfold checkout_verdict.
  unfold form_checkout at 1. rewrite form_date_not_empty.
  replace (JS.lt (form_checkout w) (form_checkin w)) with true; [reflexivity|].
  symmetry. rewrite Hin, Hout. unfold JS.lt, String.ltb.
  rewrite !compare_common_prefix.
  now rewrite decimal_one_digit_after_two.
Qed.

(** X9, for a stay from 5 to 10 December 2026. *)
Lemma submitFindRoom_unpadded_days_misordered_witness :
  let w := fresh_world (filled_form "5" "12" "2026" "10" "12" "2026" "") a_clock in
  text (page (exec submitFindRoom w) checkoutError)
  = "You can't check out before you check in.".
Proof.
  intros w.
  assert (H1 : (1 <= 5 <= 9)%N) by lia.
  assert (H2 : (10 <= 10 <= 99)%N) by lia.
  assert (H3 : (10 / 10 < 5)%N) by (cbn; lia).
  destruct (submitFindRoom_unpadded_days_misordered w "2026" "12" 5 10
              eq_refl eq_refl eq_refl eq_refl eq_refl eq_refl H1 H2 H3)
    as (_ & _ & H).
  exact H.
Defined.

(** X14: for clocks in years of four digits, [getTodaysDate] gives the day
    in the form yyyy-mm-dd, the month being [getMonth() + 1], and a later
    day gives a greater string. *)
Theorem getTodaysDate_sorts_chronologically :
  forall w1 w2 : world,
    clock_in_range (now w1) -> clock_in_range (now w2) ->
    today w1 = canonical (clock_date (now w1)) /\
    (JS.lt (today w1) (today w2) = true <->
     earlier (clock_date (now w1)) (clock_date (now w2))).
Proof.
  intros w1 w2 H1 H2.
  rewrite (clock_canonical w1 H1), (clock_canonical w2 H2).
  split; [reflexivity|].
  apply lt_canonical; now apply clock_writable.
Qed.

(** X14, for 31 January 2026 and 1 February 2026. *)
Lemma getTodaysDate_sorts_chronologically_witness :
  JS.lt (today (fresh_world (filled_form "" "" "" "" "" "" "") (mkDate 31 0 2026)))
        (today (fresh_world (filled_form "" "" "" "" "" "" "") (mkDate 1 1 2026)))
  = true.
Proof.
  destruct (getTodaysDate_sorts_chronologically
              (fresh_world (filled_form "" "" "" "" "" "" "") (mkDate 31 0 2026))
              (fresh_world (filled_form "" "" "" "" "" "" "") (mkDate 1 1 2026)))
    as (_ & H).
  - unfold clock_in_range; cbn; lia.
  - unfold clock_in_range; cbn; lia.
  - apply H. unfold earlier; cbn; lia.
Defined.

(** ** The handlers together *)

Lemma same_inputs_and_store_refl (w : world) : same_inputs_and_store w w.
Proof. now repeat split. Qed.

Lemma same_inputs_and_store_trans (w1 w2 w3 : world) :
  same_inputs_and_store w1 w2 -> same_inputs_and_store w2 w3 ->
  same_inputs_and_store w1 w3.
Proof.
  intros (V1 & L1 & S1) (V2 & L2 & S2).
  split; [|split];
    [intros i Hi; now rewrite V2, V1 by assumption | congruence | congruence].
Qed.

Lemma update_options_same (i : id) (f : element -> element) (w : world) :
  (forall e, value (f e) = value e) ->
  same_inputs_and_store w (exec (update i f) w).
Proof.
  intros Hf. unfold update, exec. cbn [snd]. repeat split.
  intros j _. cbn [page]. destruct (id_eq_dec i j); [apply Hf | reflexivity].
Qed.

Lemma update_roomSelection_same (f : element -> element) (w : world) :
  same_inputs_and_store w (exec (update roomSelection f) w).
Proof.
  unfold update, exec. cbn [snd]. repeat split.
  intros j Hj. cbn [page].
  destruct (id_eq_dec roomSelection j); [congruence | reflexivity].
Qed.

Lemma forEach_same_inputs (ci co : string) (bookings : list Booking.t)
      (rooms : list Room.t) (w : world) :
  same_inputs_and_store w
    (exec (forEach rooms
             (fun room =>
                if checkAvailable (Room.number room) ci co bookings then
                  append_option roomSelection (Room.number room)
                                (Room.number room ++ ": " ++ Room.price room)
                else ret tt)) w).
Proof.
  revert w. induction rooms as [|r rooms IH]; intros w.
  - apply same_inputs_and_store_refl.
  - cbn [forEach]. rewrite exec_bind.
    eapply same_inputs_and_store_trans; [|apply IH].
    destruct (checkAvailable (Room.number r) ci co bookings).
    + apply update_roomSelection_same.
    + apply same_inputs_and_store_refl.
Qed.

Lemma bookingsDone_same_inputs ci co rooms bookings w :
  same_inputs_and_store w (exec (bookingsDone ci co rooms bookings) w).
Proof.
  unfold bookingsDone. rewrite exec_bind.
  eapply same_inputs_and_store_trans; [apply forEach_same_inputs|].
  now apply update_options_same.
Qed.

Lemma response_same_inputs (k : nat) (r : option XML.node) (w : world) :
  same_inputs_and_store w (exec (handle (Completes k r)) w).
Proof.
  destruct (nth_error (inflight w) k) as [[ci co|ci co rooms]|] eqn:Hk;
    destruct r as [data|].
  - rewrite (handle_rooms_response k data ci co w Hk). now repeat split.
  - rewrite (handle_failure k _ w Hk). now repeat split.
  - rewrite (handle_bookings_response k data ci co rooms w Hk).
    eapply same_inputs_and_store_trans; [|apply bookingsDone_same_inputs].
    now repeat split.
  - rewrite (handle_failure k _ w Hk). now repeat split.
  - unfold handle, exec. rewrite Hk. apply same_inputs_and_store_refl.
  - unfold handle, exec. rewrite Hk. apply same_inputs_and_store_refl.
Qed.

Lemma responses_same_inputs (es : list event) (w : world) :
  Forall is_response es -> same_inputs_and_store w (exec (run es) w).
Proof.
  revert w. induction es as [|e es IH]; intros w H.
  - apply same_inputs_and_store_refl.
  - inversion H as [|e' es' He Hes]; subst. cbn [run]. rewrite exec_bind.
    eapply same_inputs_and_store_trans; [|now apply IH].
    destruct e as [| |k r]; try contradiction.
    apply response_same_inputs.
Qed.

Lemma guest_enters_values (room : JS.value) (name : string) (w : world) :
  let w' := exec (guest_enters room name) w in
  value (page w' roomSelection) = room /\
  value (page w' bookingName) = JS.Str name /\
  value (page w' checkinDate) = value (page w checkinDate) /\
  value (page w' checkoutDate) = value (page w checkoutDate) /\
  localBookings w' = localBookings w.
Proof. repeat split. Qed.

(** X11: the two stages compose.  After a find-room submission that
    passes, whatever responses arrive in between, a booking submitted with
    a name that is not blank is stored with the room the guest picked, the
    trimmed name, and the two dates of the find form. *)
Theorem booking_carries_the_dates_found :
  forall (w : world) (es : list event) (room : JS.value) (name : string),
    Forall is_response es ->
    text (page (exec submitFindRoom w) checkinError) = "" ->
    text (page (exec submitFindRoom w) checkoutError) = "" ->
    all_white_space name = false ->
    let w1 := exec (run (SubmitFindRoomForm :: es)) w in
    let w2 := exec (guest_enters room name ;; submitBookRoom) w1 in
    localBookings w2 =
    (localBookings w ++
     [NewBooking.mk room (JS.Str (form_checkin w)) (JS.Str (form_checkout w))
                    (JS.trim name)])%list.
Proof.
  intros w es room name Hes Hm1 Hm2 Hname w1 w2.
  destruct (submitFindRoom_outcome w) as (_ & _ & _ & _ & Hstore & _).
  assert (Hvalid : (checkin_verdict (form_checkin w) (today w) =? "") &&
                   (checkout_verdict (form_checkout w) (form_checkin w) =? "")
                   = true) by (apply messages_empty_iff_valid; now split).
  assert (Hw0 : exec submitFindRoom w =
                search_started (form_checkin w) (form_checkout w)
                  (with_text checkoutError
                     (checkout_verdict (form_checkout w) (form_checkin w))
                     (with_text checkinError
                        (checkin_verdict (form_checkin w) (today w)) w))).
  { rewrite exec_submitFindRoom. cbv zeta. now rewrite Hvalid. }
  destruct (responses_same_inputs es (exec submitFindRoom w) Hes) as (V & L & _).
  assert (Hw1 : w1 = exec (run es) (exec submitFindRoom w)).
  { unfold w1. cbn [run]. now rewrite exec_bind, handle_submitFindRoom. }
  unfold w2. rewrite exec_bind. unfold exec at 1. rewrite submitBookRoom_run.
  set (w1' := exec (guest_enters room name) w1).
  assert (Hnb : new_booking w1' =
                NewBooking.mk room (JS.Str (form_checkin w))
                              (JS.Str (form_checkout w)) (JS.trim name)).
  { destruct (guest_enters_values room name w1) as (G1 & G2 & G3 & G4 & _).
    fold w1' in G1, G2, G3, G4.
    unfold new_booking. rewrite G1, G2, G3, G4. cbn [trim].
    rewrite Hw1, !V, Hw0 by discriminate.
    now destruct (search_started_values (form_checkin w) (form_checkout w)
                    (with_text checkoutError
                       (checkout_verdict (form_checkout w) (form_checkin w))
                       (with_text checkinError
                          (checkin_verdict (form_checkin w) (today w)) w)))
      as (-> & -> & _). }
  rewrite Hnb. cbn [NewBooking.name]. rewrite (trim_not_empty name Hname).
  cbn [snd]. unfold saveLocalBookings, loadLocalBookings, exec at 1.
  cbn [snd localBookings]. unfold JS.push. f_equal.
  destruct (guest_enters_values room name w1) as (_ & _ & _ & _ & G5).
  fold w1' in G5. now rewrite G5, Hw1, L.
Qed.

(** X11, for Ann Lee, who asks for 10 to 12 November 2026 and picks room
    101 once the rooms are listed. *)
Lemma booking_carries_the_dates_found_witness :
  let w := fresh_world (filled_form "10" "11" "2026" "12" "11" "2026" "") a_clock in
  localBookings
    (exec (guest_enters (JS.Str "101") " Ann Lee" ;; submitBookRoom)
          (exec (run [SubmitFindRoomForm;
                      Completes 0 (Some rooms_xml);
                      Completes 0 (Some bookings_xml)]) w)) =
  [NewBooking.mk (JS.Str "101") (JS.Str "2026-11-10") (JS.Str "2026-11-12")
                 "Ann Lee"].
Proof.
  intros w.
  apply (booking_carries_the_dates_found w
           [Completes 0 (Some rooms_xml); Completes 0 (Some bookings_xml)]
           (JS.Str "101") " Ann Lee").
  - repeat constructor.
  - reflexivity.
  - reflexivity.
  - reflexivity.
Defined.

Lemma bookingsDone_shows_form ci co rooms bookings w :
  visible (page (exec (bookingsDone ci co rooms bookings) w) bookRoomForm) = true.
Proof. unfold bookingsDone. rewrite exec_bind. reflexivity. Qed.

Lemma submitFindRoom_keeps_form_visibility (w : world) :
  visible (page (exec submitFindRoom w) bookRoomForm) =
  visible (page w bookRoomForm).
Proof.
  rewrite exec_submitFindRoom. cbv zeta.
  destruct (_ && _).
  - rewrite search_started_visible by discriminate.
    destruct (with_text_frame checkoutError
                (checkout_verdict (form_checkout w) (form_checkin w))
                (with_text checkinError
                   (checkin_verdict (form_checkin w) (today w)) w) bookRoomForm)
      as (_ & -> & _).
    now destruct (with_text_frame checkinError
                    (checkin_verdict (form_checkin w) (today w)) w bookRoomForm)
      as (_ & -> & _).
  - destruct (with_text_frame checkoutError
                (checkout_verdict (form_checkout w) (form_checkin w))
                (with_text checkinError
                   (checkin_verdict (form_checkin w) (today w)) w) bookRoomForm)
      as (_ & -> & _).
    now destruct (with_text_frame checkinError
                    (checkin_verdict (form_checkin w) (today w)) w bookRoomForm)
      as (_ & -> & _).
Qed.

Lemma submitBookRoom_keeps_visibility (w : world) (j : id) :
  visible (page (exec submitBookRoom w) j) = visible (page w j).
Proof.
  unfold exec. rewrite submitBookRoom_run.
  destruct (NewBooking.name (new_booking w) =? ""); cbn [snd].
  - now destruct (with_text_frame nameError "You must enter a booking name" w j)
      as (_ & -> & _).
  - change (visible (page (with_text nameError "" w) j) = visible (page w j)).
    now destruct (with_text_frame nameError "" w j) as (_ & -> & _).
Qed.

Lemma run_last (es : list event) (e : event) (w : world) :
  exec (run (es ++ [e])) w = exec (handle e) (exec (run es) w).
Proof.
  revert w. induction es as [|e' es IH]; intros w.
  - cbn [run app]. now rewrite exec_bind.
  - cbn [run app]. now rewrite !exec_bind, IH.
Qed.

(** X12: [setup] hides the booking form; afterwards an event changes its
    visibility only by showing it, and only when a response with the
    bookings arrives, which always shows it.  No handler hides it again,
    not even an accepted booking. *)
Theorem booking_form_shown_by_bookings_only :
  (forall w : world, visible (page (exec setup w) bookRoomForm) = false) /\
  (forall (e : event) (w : world),
      visible (page (exec (handle e) w) bookRoomForm)
      <> visible (page w bookRoomForm) ->
      visible (page (exec (handle e) w) bookRoomForm) = true /\
      exists k ci co rooms data,
        e = Completes k (Some data) /\
        nth_error (inflight w) k = Some (GetBookings ci co rooms)) /\
  (forall (k : nat) (ci co : string) (rooms : list Room.t) (data : XML.node)
          (w : world),
      nth_error (inflight w) k = Some (GetBookings ci co rooms) ->
      visible (page (exec (handle (Completes k (Some data))) w) bookRoomForm)
      = true) /\
  (forall w : world,
      visible (page (exec submitBookRoom w) bookRoomForm) =
      visible (page w bookRoomForm)).
Proof.
  split; [reflexivity|]. split; [|split].
  - intros e w H. destruct e as [| |k [data|]].
    + exfalso. apply H.
      rewrite handle_submitFindRoom. apply submitFindRoom_keeps_form_visibility.
    + exfalso. apply H.
      rewrite handle_submitBookRoom. apply submitBookRoom_keeps_visibility.
    + destruct (nth_error (inflight w) k) as [[ci co|ci co rooms]|] eqn:Hk.
      * exfalso. apply H. now rewrite (handle_rooms_response k data ci co w Hk).
      * split.
        -- rewrite (handle_bookings_response k data ci co rooms w Hk).
           apply bookingsDone_shows_form.
        -- now exists k, ci, co, rooms, data.
      * exfalso. apply H. unfold handle, exec. now rewrite Hk.
    + exfalso. apply H.
      destruct (nth_error (inflight w) k) as [r|] eqn:Hk.
      * now rewrite (handle_failure k r w Hk).
      * unfold handle, exec. now rewrite Hk.
  - intros k ci co rooms data w Hk.
    rewrite (handle_bookings_response k data ci co rooms w Hk).
    apply bookingsDone_shows_form.
  - intros w. apply submitBookRoom_keeps_visibility.
Qed.

(** X12, from the page set up to the arrival of the bookings. *)
Lemma booking_form_shown_by_bookings_only_witness :
  let w := exec setup
             (fresh_world (filled_form "10" "11" "2026" "12" "11" "2026" "")
                          a_clock) in
  visible (page (exec (run [SubmitFindRoomForm; Completes 0 (Some rooms_xml)]) w)
                bookRoomForm) = false /\
  visible (page (exec (run [SubmitFindRoomForm; Completes 0 (Some rooms_xml);
                            Completes 0 (Some bookings_xml)]) w)
                bookRoomForm) = true.
Proof.
  intros w. split; [vm_compute; reflexivity|].
  destruct booking_form_shown_by_bookings_only as (_ & _ & H & _).
  change [SubmitFindRoomForm; Completes 0 (Some rooms_xml);
          Completes 0 (Some bookings_xml)]
    with ([SubmitFindRoomForm; Completes 0 (Some rooms_xml)]
            ++ [Completes 0 (Some bookings_xml)])%list.
  rewrite run_last. eapply H. vm_compute. reflexivity.
Defined.

(** ** The stored bookings *)

Lemma trim_end_idempotent (s : string) : JS.trim_end (JS.trim_end s) = JS.trim_end s.
Proof.
  induction s as [|c s IH]; [reflexivity|]. cbn [JS.trim_end].
  destruct (JS.is_white_space c && (JS.trim_end s =? "")) eqn:E; [reflexivity|].
  cbn [JS.trim_end]. now rewrite IH, E.
Qed.

Lemma trim_idempotent (s : string) : JS.trim (JS.trim s) = JS.trim s.
Proof.
  unfold JS.trim. destruct (all_white_space s) eqn:E.
  - now rewrite (trim_start_blank s E).
  - destruct (trim_start_not_blank s E) as (c & s' & -> & Hc).
    cbn [JS.trim_end]. rewrite Hc. cbn [andb JS.trim_start]. rewrite Hc.
    cbn [JS.trim_end]. rewrite Hc. cbn [andb]. now rewrite trim_end_idempotent.
Qed.

Lemma browser_trim_idempotent (v : JS.value) : JS.trim (trim v) = trim v.
Proof. destruct v; [reflexivity | reflexivity | apply trim_idempotent]. Qed.

Lemma handle_grows_store (e : event) (w : world) :
  exists added : list NewBooking.t,
    localBookings (exec (handle e) w) = (localBookings w ++ added)%list /\
    Forall accepted_name added.
Proof.
  destruct e as [| |k r].
  - exists []. rewrite handle_submitFindRoom.
    destruct (submitFindRoom_outcome w) as (_ & _ & _ & _ & H & _).
    rewrite H, app_nil_r. now split.
  - rewrite handle_submitBookRoom. unfold exec. rewrite submitBookRoom_run.
    destruct (NewBooking.name (new_booking w) =? "") eqn:E.
    + exists []. cbn [snd]. rewrite app_nil_r. now split.
    + exists [new_booking w]. split; [reflexivity|].
      constructor; [|constructor]. split.
      * now apply String.eqb_neq.
      * unfold new_booking. cbn [NewBooking.name]. apply browser_trim_idempotent.
  - exists []. destruct (response_same_inputs k r w) as (_ & H & _).
    rewrite H, app_nil_r. now split.
Qed.

(** X13: whatever the events, the stored list only grows at its end, and
    every booking added has a name that is not empty and has no white space
    at either end. *)
Theorem store_grows_with_accepted_names :
  forall (es : list event) (w : world),
    exists added : list NewBooking.t,
      localBookings (exec (run es) w) = (localBookings w ++ added)%list /\
      Forall accepted_name added.
Proof.
  intros es. induction es as [|e es IH]; intros w.
  - exists []. cbn [run]. split; [now rewrite app_nil_r | constructor].
  - cbn [run]. rewrite exec_bind. change (result (handle e) w) with tt.
    destruct (handle_grows_store e w) as (a1 & H1 & F1).
    destruct (IH (exec (handle e) w)) as (a2 & H2 & F2).
    exists (a1 ++ a2)%list. split.
    + now rewrite H2, H1, app_assoc.
    + apply Forall_app. now split.
Qed.

(** ** The room search on documents of the expected shape *)

Lemma search_run_lists (ci co : string) (roomsXml bookingsXml : XML.node)
      (w : world) :
  inflight w = [] ->
  listed (exec (run [Completes 0 (Some roomsXml); Completes 0 (Some bookingsXml)])
               (exec (setupBookRoom ci co) w)) =
  (listed w ++
   map option_of
     (available_rooms ci co (parseRoomXML roomsXml)
                      (parseBookingXML bookingsXml)))%list.
Proof.
  intros Hw. cbn [run]. rewrite !exec_bind.
  change (exec (ret tt) ?x) with x.
  set (w1 := exec (setupBookRoom ci co) w).
  assert (H1 : nth_error (inflight w1) 0 = Some (GetRooms ci co))
    by (unfold w1, setupBookRoom, ajax, exec; cbn [snd inflight]; now rewrite Hw).
  rewrite (handle_rooms_response 0 roomsXml ci co w1 H1).
  set (w2 := exec (roomsDone ci co (parseRoomXML roomsXml))
                  (exec (remove_inflight 0) w1)).
  assert (H2 : nth_error (inflight w2) 0 =
               Some (GetBookings ci co (parseRoomXML roomsXml))).
  { unfold w2, roomsDone, ajax, remove_inflight, exec. cbn [snd inflight].
    unfold w1, setupBookRoom, ajax, exec. cbn [snd inflight]. now rewrite Hw. }
  rewrite (handle_bookings_response 0 bookingsXml ci co _ w2 H2).
  now rewrite bookingsDone_lists_available.
Qed.

Lemma booking_of_stay_dated (s : stay) :
  plain_date (stay_from s) -> plain_date (stay_to s) ->
  earlier (stay_from s) (stay_to s) ->
  dated (booking_of_stay s) (stay_from s) (stay_to s).
Proof.
  intros Hf Ht He. unfold dated, booking_of_stay.
  cbn [Booking.checkin Booking.checkout].
  split; [now apply plain_date_writable|].
  split; [now apply plain_date_writable|].
  split; [exact He|]. now split.
Qed.

(** X15: with a catalog and a bookings file of the expected shape and a
    requested stay of at least one night in the form yyyy-mm-dd, the room
    search adds to the selection, in the order of the catalog, exactly the
    rooms none of whose recorded stays shares a night with the requested
    stay. *)
Theorem room_search_lists_rooms_free_every_night :
  forall (ci co : calendar_date) (rooms : list Room.t) (stays : list stay)
         (w : world),
    inflight w = [] ->
    writable ci -> writable co -> earlier ci co ->
    (forall s, In s stays ->
               plain_date (stay_from s) /\ plain_date (stay_to s) /\
               earlier (stay_from s) (stay_to s)) ->
    exists free : Room.t -> bool,
      listed (exec (run [Completes 0 (Some (rooms_document rooms));
                         Completes 0 (Some (bookings_document stays))])
                   (exec (setupBookRoom (canonical ci) (canonical co)) w)) =
      (listed w ++ map option_of (filter free rooms))%list /\
      (forall r : Room.t,
          free r = true <->
          (forall s, In s stays -> stay_room s = Room.number r ->
                     ~ shares_night s ci co)).
Proof.
  intros ci co rooms stays w Hw Hci Hco Hcico Hstays.
  exists (fun r => checkAvailable (Room.number r) (canonical ci) (canonical co)
                                  (map booking_of_stay stays)).
  split.
  - rewrite search_run_lists by assumption.
    rewrite parseRoomXML_rooms_document.
    rewrite parseBookingXML_bookings_document; [reflexivity|].
    intros s Hs. destruct (Hstays s Hs) as (H1 & H2 & _). now split.
  - intros r. rewrite checkAvailable_true_iff, Forall_forall. split.
    + intros H s Hs Hroom Hshare.
      destruct (Hstays s Hs) as (H1 & H2 & H3).
      apply (H (booking_of_stay s)); [now apply in_map|].
      split; [exact Hroom|].
      apply (overlaps_iff_shared_night _ (stay_from s) (stay_to s) ci co);
        auto using booking_of_stay_dated.
    + intros H b Hb [Hroom Hov].
      apply in_map_iff in Hb. destruct Hb as (s & <- & Hs).
      destruct (Hstays s Hs) as (H1 & H2 & H3).
      apply (H s Hs Hroom).
      apply (overlaps_iff_shared_night _ (stay_from s) (stay_to s) ci co) in Hov;
        auto using booking_of_stay_dated.
Qed.

(** X15, for three rooms, room 102 taken from 9 to 20 November 2026, and a
    stay from 10 to 12 November 2026. *)
Lemma room_search_lists_rooms_free_every_night_witness :
  exists free : Room.t -> bool,
    listed (exec (run [Completes 0
                         (Some (rooms_document
                                  [Room.mk "101" "Single" "100.00";
                                   Room.mk "102" "Double" "150.00";
                                   Room.mk "103" "Suite" "250.00"]));
                       Completes 0
                         (Some (bookings_document
                                  [mkStay "102" (mkCalendarDate 2026 11 9)
                                          (mkCalendarDate 2026 11 20)]))])
                 (exec (setupBookRoom "2026-11-10" "2026-11-12")
                       (fresh_world (filled_form "" "" "" "" "" "" "") a_clock))) =
    map option_of
        (filter free [Room.mk "101" "Single" "100.00";
                      Room.mk "102" "Double" "150.00";
                      Room.mk "103" "Suite" "250.00"]).
Proof.
  destruct (room_search_lists_rooms_free_every_night
              (mkCalendarDate 2026 11 10) (mkCalendarDate 2026 11 12)
              [Room.mk "101" "Single" "100.00";
               Room.mk "102" "Double" "150.00";
               Room.mk "103" "Suite" "250.00"]
              [mkStay "102" (mkCalendarDate 2026 11 9) (mkCalendarDate 2026 11 20)]
              (fresh_world (filled_form "" "" "" "" "" "" "") a_clock))
    as (free & H & _).
  - reflexivity.
  - unfold writable; cbn; lia.
  - unfold writable; cbn; lia.
  - unfold earlier; cbn; lia.
  - intros s [<-|[]]. unfold plain_date, earlier; cbn. lia.
  - exists free. exact H.
Defined.
